(** * BP-AFRICA back-office: fetch/normalisation hooks and API client

    A shallow embedding of
    - [hooks/use-categorized-transactions.ts] (three per-category caches,
      response-shape normalisation),
    - the cascading filter hook [useTransactionFilters],
    - the 401 branch of the API client's response interceptor,
    together with the properties of the specification that concern them.

    React state is passed explicitly; an [await] splits a callback into the
    part that runs before the request is issued and the part that runs when
    the request settles.  What the backend answers is an input of the
    second part. *)

From Stdlib Require Import ZArith String List Bool Lia.
From stdpp Require Import base option strings gmap list.

Local Open Scope string_scope.

(** ** JavaScript values and the few operators the hooks use *)

Module Js.

(** A JSON-like value.  The property list of [JObj] is the object's own
    enumerable properties in enumeration order (the order of [Object.keys]
    and [Object.values]); keys are distinct.  Numbers that occur in the
    payloads are page counters and totals, kept as integers. *)
#[warnings="-register-all"] Inductive value : Type :=
| JUndefined
| JNull
| JBool (b : bool)
| JNum (n : Z)
| JStr (s : string)
| JArr (xs : list value)
| JObj (props : list (string * value)).

(** Anything can be thrown; [instanceof Error] tells the two apart. *)
Inductive thrown : Type :=
| ErrorInstance (name message : string)
| NonError (v : value).

(** The outcome of evaluating an expression that may throw. *)
Inductive result (A : Type) : Type :=
| Ok (a : A)
| Throw (t : thrown).
Arguments Ok {A} a.
Arguments Throw {A} t.

#[export] Instance result_ret : MRet result := fun _ a => Ok a.
#[export] Instance result_bind : MBind result := fun _ _ f m =>
  match m with
  | Ok a => f a
  | Throw t => Throw t
  end.

(** What an awaited promise delivers. *)
Inductive settled : Type :=
| Resolved (v : value)
| Rejected (t : thrown).

Definition await (p : settled) : result value :=
  match p with
  | Resolved v => Ok v
  | Rejected t => Throw t
  end.

(** ToBoolean. *)
Definition truthy (v : value) : bool :=
  match v with
  | JUndefined | JNull => false
  | JBool b => b
  | JNum n => negb (n =? 0)%Z
  | JStr s => negb (String.eqb s "")
  | JArr _ | JObj _ => true
  end.

(** [a || b] *)
Definition or (a b : value) : value := if truthy a then a else b.

(** [Array.isArray] *)
Definition isArray (v : value) : bool :=
  match v with
  | JArr _ => true
  | _ => false
  end.

(** The elements of a value known to be an array. *)
Definition elements (v : value) : list value :=
  match v with
  | JArr xs => xs
  | _ => []
  end.

Fixpoint lookup_prop (k : string) (props : list (string * value)) : value :=
  match props with
  | [] => JUndefined
  | (k', v) :: rest => if String.eqb k k' then v else lookup_prop k rest
  end.

(** [v.k] for a receiver that is neither [null] nor [undefined], and a key
    [k] that is not a built-in of strings, numbers, booleans or arrays
    (the hooks read [data], [items], [meta], [id], [name], ...). *)
Definition prop (v : value) (k : string) : value :=
  match v with
  | JObj props => lookup_prop k props
  | _ => JUndefined
  end.

Definition isNullish (v : value) : bool :=
  match v with
  | JUndefined | JNull => true
  | _ => false
  end.

(** The TypeError of a property read on [null] or [undefined] (V8 text). *)
Definition cannotRead (v : value) (k : string) : thrown :=
  ErrorInstance "TypeError"
    ("Cannot read properties of "
       ++ (match v with JNull => "null" | _ => "undefined" end)
       ++ " (reading '" ++ k ++ "')").

(** [v.k] for an arbitrary receiver. *)
Definition read (v : value) (k : string) : result value :=
  if isNullish v then Throw (cannotRead v k) else Ok (prop v k).

Fixpoint chars (s : string) : list value :=
  match s with
  | EmptyString => []
  | String c rest => JStr (String c EmptyString) :: chars rest
  end.

(** [Object.values(v)] for a receiver that is neither [null] nor
    [undefined]. *)
Definition objectValues (v : value) : list value :=
  match v with
  | JObj props => map snd props
  | JArr xs => xs
  | JStr s => chars s
  | _ => []
  end.

Fixpoint assign1 (k : string) (v : value) (props : list (string * value))
  : list (string * value) :=
  match props with
  | [] => [(k, v)]
  | (k', v') :: rest =>
      if String.eqb k k' then (k', v) :: rest else (k', v') :: assign1 k v rest
  end.

(** [{...target, ...source}]: a key already present keeps its position and
    takes the new value, a new key is appended. *)
Definition spread (target source : list (string * value))
  : list (string * value) :=
  fold_left (fun acc kv => assign1 (fst kv) (snd kv) acc) source target.

(** [s.includes(needle)] for a non-empty needle. *)
Definition includes (needle s : string) : bool :=
  match String.index 0 needle s with
  | Some _ => true
  | None => false
  end.

(** [error instanceof Error ? error.message : fallback] *)
Definition messageOr (fallback : string) (t : thrown) : string :=
  match t with
  | ErrorInstance _ message => message
  | NonError _ => fallback
  end.

(** [k in obj] for an own property. *)
Definition hasOwn (k : string) (props : list (string * value)) : bool :=
  existsb (fun kv => String.eqb k (fst kv)) props.

(** [v?.k] *)
Definition optProp (v : value) (k : string) : value :=
  if isNullish v then JUndefined else prop v k.

End Js.

Import Js.

(** ** hooks/use-categorized-transactions.ts *)

Module CategorizedTransactions.

(** [TransactionCategory = keyof typeof TRANSACTION_CATEGORIES] *)
Inductive TransactionCategory : Type := Collection | Reversal | Payout.

#[export] Instance TransactionCategory_eq_dec : EqDecision TransactionCategory.
Proof. solve_decision. Defined.

Inductive CategorizedTransactionType : Type := MONEY_IN | REVERSAL | MONEY_OUT.

#[export] Instance CategorizedTransactionType_eq_dec :
  EqDecision CategorizedTransactionType.
Proof. solve_decision. Defined.

Definition TRANSACTION_CATEGORIES (category : TransactionCategory)
  : CategorizedTransactionType :=
  match category with
  | Collection => MONEY_IN
  | Reversal => REVERSAL
  | Payout => MONEY_OUT
  end.

Definition wireName (t : CategorizedTransactionType) : string :=
  match t with
  | MONEY_IN => "money_in"
  | REVERSAL => "reversal"
  | MONEY_OUT => "money_out"
  end.

(** [UseCategorizedTransactionsState].  [meta] holds whatever the normaliser
    stored: [null], the object it built, or the backend's own [meta]. *)
Record UseCategorizedTransactionsState : Type := {
  data : list value;
  meta : value;
  loading : bool;
  error : option string
}.

Definition initialState : UseCategorizedTransactionsState :=
  {| data := []; meta := JNull; loading := false; error := None |}.

(** The four [useState] cells of the hook. *)
Record Hook : Type := {
  collection : UseCategorizedTransactionsState;
  reversal : UseCategorizedTransactionsState;
  payout : UseCategorizedTransactionsState;
  currentCategory : TransactionCategory
}.

Definition useState (initialCategory : TransactionCategory) : Hook :=
  {| collection := initialState; reversal := initialState;
     payout := initialState; currentCategory := initialCategory |}.

(** A state setter applied to an updater function; [setX(obj)] is the
    constant updater. *)
Definition Update : Type :=
  UseCategorizedTransactionsState -> UseCategorizedTransactionsState.

Definition setCollection (f : Update) (h : Hook) : Hook :=
  {| collection := f (collection h); reversal := reversal h;
     payout := payout h; currentCategory := currentCategory h |}.

Definition setReversal (f : Update) (h : Hook) : Hook :=
  {| collection := collection h; reversal := f (reversal h);
     payout := payout h; currentCategory := currentCategory h |}.

Definition setPayout (f : Update) (h : Hook) : Hook :=
  {| collection := collection h; reversal := reversal h;
     payout := f (payout h); currentCategory := currentCategory h |}.

(** The [default:] arm of the source switch is unreachable for a
    [TransactionCategory]. *)
Definition getCategorySetter (category : TransactionCategory)
  : Update -> Hook -> Hook :=
  match category with
  | Collection => setCollection
  | Reversal => setReversal
  | Payout => setPayout
  end.

Definition getCategoryState (category : TransactionCategory) (h : Hook)
  : UseCategorizedTransactionsState :=
  match category with
  | Collection => collection h
  | Reversal => reversal h
  | Payout => payout h
  end.

(** One call [transactionService.getCategorizedTransactions(type, query)]. *)
Record ServiceCall : Type := {
  transactionType : CategorizedTransactionType;
  query : list (string * value)
}.

(** [{ page: params?.page || 1, perPage: params?.perPage || 10, ...params }] *)
Definition queryOf (params : option (list (string * value)))
  : list (string * value) :=
  let p := match params with Some o => JObj o | None => JUndefined end in
  spread [("page", or (prop p "page") (JNum 1));
          ("perPage", or (prop p "perPage") (JNum 10))]
         (match params with Some o => o | None => [] end).

(** The [params] object the service hands to [apiClient.get]:
    [{ ...params, transactionType, paginateData: true }]. *)
Definition getCategorizedTransactions (call : ServiceCall)
  : list (string * value) :=
  spread (query call)
         [("transactionType", JStr (wireName (transactionType call)));
          ("paginateData", JBool true)].

(** [response.success || response.status === "success"], as a condition. *)
Definition isSuccess (response : value) : bool :=
  truthy (prop response "success")
  || match prop response "status" with
     | JStr s => String.eqb s "success"
     | _ => false
     end.

(** [Math.ceil(n / 10)] *)
Definition ceilDiv10 (n : nat) : Z := ((Z.of_nat n + 9) / 10)%Z.

(** The meta object built in case 1. *)
Definition paginationMeta (responseData : value) : value :=
  JObj [("page", or (prop responseData "currentPage") (JNum 1));
        ("perPage", or (prop responseData "perPage") (JNum 10));
        ("total", or (prop responseData "total") (JNum 0));
        ("totalPages", or (prop responseData "lastPage") (JNum 1))].

(** The object on the right of [meta || {...}]. *)
Definition defaultMeta (transactions : list value) : value :=
  JObj [("page", JNum 1);
        ("perPage", JNum 10);
        ("total", JNum (Z.of_nat (length transactions)));
        ("totalPages", JNum (ceilDiv10 (length transactions)))].

(** Lines 125-160: the cascade of shape tests on a truthy [responseData],
    giving the final values of [transactions] and [meta]. *)
Definition extract (responseData : value) : list value * value :=
  if truthy (prop responseData "data") && isArray (prop responseData "data")
  then (elements (prop responseData "data"), paginationMeta responseData)
  else if truthy (prop responseData "items")
          && isArray (prop responseData "items")
  then (elements (prop responseData "items"), prop responseData "meta")
  else if isArray responseData
  then (elements responseData, JNull)
  else if truthy (prop responseData "transactions")
          && isArray (prop responseData "transactions")
  then (elements (prop responseData "transactions"), prop responseData "meta")
  else
    let possibleArrays := filter (fun val => isArray val = true)
                                 (objectValues responseData) in
    match possibleArrays with
    | first :: _ => (elements first, JNull)
    | [] => ([], JNull)
    end.

(** The body of the [try] after the [await]: either the state update it
    performs, or what it throws. *)
Definition tryBlock (served : settled) : result Update :=
  response ← await served;
  _ ← read response "success";
  let responseData := or (prop response "data") (prop response "data") in
  if isSuccess response && truthy responseData then
    let '(transactions, meta0) := extract responseData in
    mret (fun _ =>
            {| data := transactions;
               meta := or meta0 (defaultMeta transactions);
               loading := false;
               error := None |})
  else
    mret (fun prev =>
            {| data := data prev; meta := meta prev;
               loading := false;
               error := Some "Failed to fetch transactions" |}).

(** The state update of the [catch] clause. *)
Definition catchBlock (t : thrown) : Update :=
  fun prev =>
    {| data := data prev; meta := meta prev;
       loading := false;
       error := Some (messageOr "An unknown error occurred" t) |}.

(** [fetchTransactions] up to its [await]: the loading update and the
    request it issues. *)
Definition fetchIssued (category : TransactionCategory)
    (params : option (list (string * value))) (h : Hook) : Hook * ServiceCall :=
  let setState := getCategorySetter category in
  (setState (fun prev =>
               {| data := data prev; meta := meta prev;
                  loading := true; error := None |}) h,
   {| transactionType := TRANSACTION_CATEGORIES category;
      query := queryOf params |}).

(** [fetchTransactions] from its [await] on, once the request settled. *)
Definition fetchSettled (category : TransactionCategory) (served : settled)
    (h : Hook) : Hook :=
  let setState := getCategorySetter category in
  match tryBlock served with
  | Ok update => setState update h
  | Throw t => setState (catchBlock t) h
  end.

(** A whole call of [fetchTransactions] with nothing in between. *)
Definition fetchTransactions (category : TransactionCategory)
    (params : option (list (string * value))) (served : settled) (h : Hook)
  : Hook * ServiceCall :=
  let '(h1, call) := fetchIssued category params h in
  (fetchSettled category served h1, call).

(** [useEffect(() => { fetchTransactions(currentCategory) },
    [currentCategory, fetchTransactions])].  [fetchTransactions] is a
    [useCallback] over the stable [getCategorySetter], so between two
    renders the dependency array differs exactly when [currentCategory]
    does; on the first render the effect always runs. *)
Definition useEffect (previous : option Hook) (h : Hook)
  : Hook * list ServiceCall :=
  let run :=
    match previous with
    | None => true
    | Some before =>
        negb (bool_decide (currentCategory before = currentCategory h))
    end in
  if run then
    let '(h1, call) := fetchIssued (currentCategory h) None h in (h1, [call])
  else (h, []).

(** First render of [useCategorizedTransactions(initialCategory)]. *)
Definition mount (initialCategory : TransactionCategory)
  : Hook * list ServiceCall :=
  useEffect None (useState initialCategory).

(** What can happen to a mounted hook. *)
Inductive Event : Type :=
| SetCurrentCategory (category : TransactionCategory)
| FetchTransactions (category : TransactionCategory)
    (params : option (list (string * value)))
| Refetch
| Settled (category : TransactionCategory) (served : settled).

(** The state setter of [useState], before effects run. *)
Definition setCurrentCategory (category : TransactionCategory) (h : Hook)
  : Hook :=
  {| collection := collection h; reversal := reversal h; payout := payout h;
     currentCategory := category |}.

(** [refetch] up to its [await]. *)
Definition refetch (h : Hook) : Hook * ServiceCall :=
  fetchIssued (currentCategory h) None h.

(** One event, followed by the effects of the re-render it causes; the
    second component lists the service calls issued on the way. *)
Definition step (h : Hook) (e : Event) : Hook * list ServiceCall :=
  match e with
  | SetCurrentCategory category =>
      useEffect (Some h) (setCurrentCategory category h)
  | FetchTransactions category params =>
      let '(h1, call) := fetchIssued category params h in
      let '(h2, calls) := useEffect (Some h) h1 in
      (h2, call :: calls)
  | Refetch =>
      let '(h1, call) := refetch h in
      let '(h2, calls) := useEffect (Some h) h1 in
      (h2, call :: calls)
  | Settled category served =>
      useEffect (Some h) (fetchSettled category served h)
  end.

(** [const currentData = getCategoryState(currentCategory)] *)
Definition currentData (h : Hook) : UseCategorizedTransactionsState :=
  getCategoryState (currentCategory h) h.

End CategorizedTransactions.

(** ** The cascading filter hook [useTransactionFilters] *)

Module TransactionFilters.

Record EnhancedTransactionFilters : Type := {
  partnerBankId : string;
  merchantId : string;
  subMerchantId : string;
  startDate : string;
  endDate : string;
  transactionType : string;
  searchTerm : string;
  perPage : string
}.

Definition initialFilters : EnhancedTransactionFilters :=
  {| partnerBankId := "all"; merchantId := "all"; subMerchantId := "all";
     startDate := ""; endDate := ""; transactionType := "all";
     searchTerm := ""; perPage := "10" |}.

(** [FilterOption]; the converters fill the fields from untyped backend
    records, so they hold arbitrary values. *)
Record FilterOption : Type := {
  id : Js.value;
  name : Js.value;
  value : Js.value
}.

Definition createInitialOption : FilterOption :=
  {| id := JStr "all"; name := JStr "-- All --"; value := JStr "all" |}.

(** [filterData.loading] *)
Record LoadingFlags : Type := {
  loadingPartnerBanks : bool;
  loadingMerchants : bool;
  loadingSubMerchants : bool
}.

(** [filterData.error] *)
Record ErrorStrings : Type := {
  errorPartnerBanks : option string;
  errorMerchants : option string;
  errorSubMerchants : option string
}.

Record TransactionFilterData : Type := {
  partnerBanks : list FilterOption;
  merchants : list FilterOption;
  subMerchants : list FilterOption;
  loading : LoadingFlags;
  error : ErrorStrings
}.

Definition initialFilterData : TransactionFilterData :=
  {| partnerBanks := [createInitialOption];
     merchants := [createInitialOption];
     subMerchants := [createInitialOption];
     loading := {| loadingPartnerBanks := false; loadingMerchants := false;
                   loadingSubMerchants := false |};
     error := {| errorPartnerBanks := None; errorMerchants := None;
                 errorSubMerchants := None |} |}.

(** The two [useState] cells of the hook. *)
Record Hook : Type := {
  filters : EnhancedTransactionFilters;
  filterData : TransactionFilterData
}.

Definition useState : Hook :=
  {| filters := initialFilters; filterData := initialFilterData |}.

Definition setFilters
    (f : EnhancedTransactionFilters -> EnhancedTransactionFilters) (h : Hook)
  : Hook :=
  {| filters := f (filters h); filterData := filterData h |}.

Definition setFilterData
    (f : TransactionFilterData -> TransactionFilterData) (h : Hook) : Hook :=
  {| filters := filters h; filterData := f (filterData h) |}.

(** [xs.map(f)] on an untyped receiver, with a callback that may throw. *)
Definition arrayMap {B : Type} (receiver : string) (f : Js.value -> result B)
    (xs : Js.value) : result (list B) :=
  match xs with
  | JArr items => mapM f items
  | JUndefined | JNull => Throw (cannotRead xs "map")
  | _ => Throw (ErrorInstance "TypeError"
                  (receiver ++ ".map is not a function"))
  end.

(** [Object.keys(v)], of which only the possible TypeError matters here. *)
Definition objectKeysCheck (v : Js.value) : result unit :=
  if isNullish v
  then Throw (ErrorInstance "TypeError"
                "Cannot convert undefined or null to object")
  else Ok tt.

Definition convertPartnerBank (bank : Js.value) : result FilterOption :=
  _ ← objectKeysCheck bank;
  let bankId :=
    or (prop bank "id")
       (or (prop bank "uuid")
           (or (prop bank "_id") (or (prop bank "bankId") (prop bank "name")))) in
  let bankName :=
    or (prop bank "name")
       (or (prop bank "bankName") (or (prop bank "title") bankId)) in
  mret {| id := bankId; name := bankName; value := bankId |}.

Definition convertPartnerBanksToOptions (partnerBanks : Js.value)
  : result (list FilterOption) :=
  let allOption :=
    {| id := JStr "all"; name := JStr "-- All --"; value := JStr "all" |} in
  bankOptions ← arrayMap "partnerBanks" convertPartnerBank partnerBanks;
  mret (allOption :: bankOptions).

Definition convertMerchant (merchant : Js.value) : result FilterOption :=
  _ ← objectKeysCheck merchant;
  let merchantId :=
    or (prop merchant "id")
       (or (prop merchant "uuid")
           (or (prop merchant "_id")
               (or (prop merchant "merchantId") (prop merchant "name")))) in
  let merchantName :=
    or (prop merchant "businessName")
       (or (prop merchant "name")
           (or (prop merchant "merchantName")
               (or (prop merchant "title") merchantId))) in
  mret {| id := merchantId; name := merchantName; value := merchantId |}.

Definition convertMerchantsToOptions (merchants : Js.value)
  : result (list FilterOption) :=
  let allOption :=
    {| id := JStr "all"; name := JStr "-- All --"; value := JStr "all" |} in
  merchantOptions ← arrayMap "merchants" convertMerchant merchants;
  mret (allOption :: merchantOptions).

Definition convertSubMerchant (subMerchant : Js.value) : result FilterOption :=
  subId ← read subMerchant "id";
  mret {| id := subId;
          name := or (prop subMerchant "businessName")
                     (prop subMerchant "name");
          value := subId |}.

Definition convertSubMerchantsToOptions (subMerchants : Js.value)
  : result (list FilterOption) :=
  let allOption :=
    {| id := JStr "all"; name := JStr "-- All --"; value := JStr "all" |} in
  subMerchantOptions ← arrayMap "subMerchants" convertSubMerchant subMerchants;
  mret (allOption :: subMerchantOptions).

(** The service calls the hook issues.  What a service delivers is an
    input of the settling half of each fetch. *)
Inductive Request : Type :=
| GetPartnerBanks
| GetMerchantsByPartnerBank (partnerBankId : string)
| GetSubMerchantsByMerchant (merchantId : string).

(** *** fetchPartnerBanks *)

Definition fetchPartnerBanksIssued (h : Hook) : Hook * list Request :=
  (setFilterData (fun prev =>
     {| partnerBanks := partnerBanks prev; merchants := merchants prev;
        subMerchants := subMerchants prev;
        loading := {| loadingPartnerBanks := true;
                      loadingMerchants := loadingMerchants (loading prev);
                      loadingSubMerchants := loadingSubMerchants (loading prev) |};
        error := {| errorPartnerBanks := None;
                    errorMerchants := errorMerchants (error prev);
                    errorSubMerchants := errorSubMerchants (error prev) |} |}) h,
   [GetPartnerBanks]).

Definition fetchPartnerBanksSettled (served : settled) (h : Hook) : Hook :=
  match (partnerBanks ← await served;
         convertPartnerBanksToOptions partnerBanks) with
  | Ok options =>
      setFilterData (fun prev =>
        {| partnerBanks := options; merchants := merchants prev;
           subMerchants := subMerchants prev;
           loading := {| loadingPartnerBanks := false;
                         loadingMerchants := loadingMerchants (loading prev);
                         loadingSubMerchants :=
                           loadingSubMerchants (loading prev) |};
           error := error prev |}) h
  | Throw t =>
      let errorMessage := messageOr "Failed to fetch partner banks" t in
      setFilterData (fun prev =>
        {| partnerBanks := partnerBanks prev; merchants := merchants prev;
           subMerchants := subMerchants prev;
           loading := {| loadingPartnerBanks := false;
                         loadingMerchants := loadingMerchants (loading prev);
                         loadingSubMerchants :=
                           loadingSubMerchants (loading prev) |};
           error := {| errorPartnerBanks := Some errorMessage;
                       errorMerchants := errorMerchants (error prev);
                       errorSubMerchants :=
                         errorSubMerchants (error prev) |} |}) h
  end.

(** *** fetchMerchantsByPartnerBank *)

Definition fetchMerchantsByPartnerBankIssued (partnerBankId : string)
    (h : Hook) : Hook * list Request :=
  if String.eqb partnerBankId "all" then
    (setFilterData (fun prev =>
       {| partnerBanks := partnerBanks prev;
          merchants := [createInitialOption];
          subMerchants := subMerchants prev;
          loading := loading prev; error := error prev |}) h,
     [])
  else
    (setFilterData (fun prev =>
       {| partnerBanks := partnerBanks prev; merchants := merchants prev;
          subMerchants := subMerchants prev;
          loading := {| loadingPartnerBanks :=
                          loadingPartnerBanks (loading prev);
                        loadingMerchants := true;
                        loadingSubMerchants :=
                          loadingSubMerchants (loading prev) |};
          error := {| errorPartnerBanks := errorPartnerBanks (error prev);
                      errorMerchants := None;
                      errorSubMerchants :=
                        errorSubMerchants (error prev) |} |}) h,
     [GetMerchantsByPartnerBank partnerBankId]).

Definition fetchMerchantsByPartnerBankSettled (served : settled) (h : Hook)
  : Hook :=
  match (merchants ← await served; convertMerchantsToOptions merchants) with
  | Ok options =>
      setFilterData (fun prev =>
        {| partnerBanks := partnerBanks prev; merchants := options;
           subMerchants := subMerchants prev;
           loading := {| loadingPartnerBanks :=
                           loadingPartnerBanks (loading prev);
                         loadingMerchants := false;
                         loadingSubMerchants :=
                           loadingSubMerchants (loading prev) |};
           error := error prev |}) h
  | Throw t =>
      let errorMessage := messageOr "Failed to fetch merchants" t in
      setFilterData (fun prev =>
        {| partnerBanks := partnerBanks prev;
           merchants := [createInitialOption];
           subMerchants := subMerchants prev;
           loading := {| loadingPartnerBanks :=
                           loadingPartnerBanks (loading prev);
                         loadingMerchants := false;
                         loadingSubMerchants :=
                           loadingSubMerchants (loading prev) |};
           error := {| errorPartnerBanks := errorPartnerBanks (error prev);
                       errorMerchants := Some errorMessage;
                       errorSubMerchants :=
                         errorSubMerchants (error prev) |} |}) h
  end.

(** *** fetchSubMerchantsByMerchant *)

Definition fetchSubMerchantsByMerchantIssued (merchantId : string) (h : Hook)
  : Hook * list Request :=
  if String.eqb merchantId "all" then
    (setFilterData (fun prev =>
       {| partnerBanks := partnerBanks prev; merchants := merchants prev;
          subMerchants := [createInitialOption];
          loading := loading prev; error := error prev |}) h,
     [])
  else
    (setFilterData (fun prev =>
       {| partnerBanks := partnerBanks prev; merchants := merchants prev;
          subMerchants := subMerchants prev;
          loading := {| loadingPartnerBanks :=
                          loadingPartnerBanks (loading prev);
                        loadingMerchants := loadingMerchants (loading prev);
                        loadingSubMerchants := true |};
          error := {| errorPartnerBanks := errorPartnerBanks (error prev);
                      errorMerchants := errorMerchants (error prev);
                      errorSubMerchants := None |} |}) h,
     [GetSubMerchantsByMerchant merchantId]).

Definition fetchSubMerchantsByMerchantSettled (served : settled) (h : Hook)
  : Hook :=
  match (subMerchants ← await served;
         convertSubMerchantsToOptions subMerchants) with
  | Ok options =>
      setFilterData (fun prev =>
        {| partnerBanks := partnerBanks prev; merchants := merchants prev;
           subMerchants := options;
           loading := {| loadingPartnerBanks :=
                           loadingPartnerBanks (loading prev);
                         loadingMerchants := loadingMerchants (loading prev);
                         loadingSubMerchants := false |};
           error := error prev |}) h
  | Throw t =>
      let errorMessage := messageOr "Failed to fetch sub-merchants" t in
      setFilterData (fun prev =>
        {| partnerBanks := partnerBanks prev; merchants := merchants prev;
           subMerchants := [createInitialOption];
           loading := {| loadingPartnerBanks :=
                           loadingPartnerBanks (loading prev);
                         loadingMerchants := loadingMerchants (loading prev);
                         loadingSubMerchants := false |};
           error := {| errorPartnerBanks := errorPartnerBanks (error prev);
                       errorMerchants := errorMerchants (error prev);
                       errorSubMerchants := Some errorMessage |} |}) h
  end.

(** *** Actions *)

Definition setPartnerBank (id0 : string) (h : Hook) : Hook * list Request :=
  let h1 := setFilters (fun prev =>
    {| partnerBankId := id0; merchantId := "all"; subMerchantId := "all";
       startDate := startDate prev; endDate := endDate prev;
       transactionType := transactionType prev;
       searchTerm := searchTerm prev; perPage := perPage prev |}) h in
  let h2 := setFilterData (fun prev =>
    {| partnerBanks := partnerBanks prev;
       merchants := [createInitialOption];
       subMerchants := [createInitialOption];
       loading := loading prev; error := error prev |}) h1 in
  fetchMerchantsByPartnerBankIssued id0 h2.

Definition setMerchant (id0 : string) (h : Hook) : Hook * list Request :=
  let h1 := setFilters (fun prev =>
    {| partnerBankId := partnerBankId prev; merchantId := id0;
       subMerchantId := "all";
       startDate := startDate prev; endDate := endDate prev;
       transactionType := transactionType prev;
       searchTerm := searchTerm prev; perPage := perPage prev |}) h in
  let h2 := setFilterData (fun prev =>
    {| partnerBanks := partnerBanks prev; merchants := merchants prev;
       subMerchants := [createInitialOption];
       loading := loading prev; error := error prev |}) h1 in
  fetchSubMerchantsByMerchantIssued id0 h2.

Definition setSubMerchant (id0 : string) (h : Hook) : Hook :=
  setFilters (fun prev =>
    {| partnerBankId := partnerBankId prev; merchantId := merchantId prev;
       subMerchantId := id0;
       startDate := startDate prev; endDate := endDate prev;
       transactionType := transactionType prev;
       searchTerm := searchTerm prev; perPage := perPage prev |}) h.

Definition setDateRange (start stop : string) (h : Hook) : Hook :=
  setFilters (fun prev =>
    {| partnerBankId := partnerBankId prev; merchantId := merchantId prev;
       subMerchantId := subMerchantId prev;
       startDate := start; endDate := stop;
       transactionType := transactionType prev;
       searchTerm := searchTerm prev; perPage := perPage prev |}) h.

Definition setTransactionType (type : string) (h : Hook) : Hook :=
  setFilters (fun prev =>
    {| partnerBankId := partnerBankId prev; merchantId := merchantId prev;
       subMerchantId := subMerchantId prev;
       startDate := startDate prev; endDate := endDate prev;
       transactionType := type;
       searchTerm := searchTerm prev; perPage := perPage prev |}) h.

Definition setSearchTerm (term : string) (h : Hook) : Hook :=
  setFilters (fun prev =>
    {| partnerBankId := partnerBankId prev; merchantId := merchantId prev;
       subMerchantId := subMerchantId prev;
       startDate := startDate prev; endDate := endDate prev;
       transactionType := transactionType prev;
       searchTerm := term; perPage := perPage prev |}) h.

Definition setPerPage (perPage0 : string) (h : Hook) : Hook :=
  setFilters (fun prev =>
    {| partnerBankId := partnerBankId prev; merchantId := merchantId prev;
       subMerchantId := subMerchantId prev;
       startDate := startDate prev; endDate := endDate prev;
       transactionType := transactionType prev;
       searchTerm := searchTerm prev; perPage := perPage0 |}) h.

Definition clearFilters (h : Hook) : Hook :=
  let h1 := setFilters (fun _ => initialFilters) h in
  setFilterData (fun prev =>
    {| partnerBanks := partnerBanks prev;
       merchants := [createInitialOption];
       subMerchants := [createInitialOption];
       loading := loading prev; error := error prev |}) h1.

(** [isLoading] and [hasError] of the returned object. *)
Definition isLoading (h : Hook) : bool :=
  let l := loading (filterData h) in
  loadingPartnerBanks l || loadingMerchants l || loadingSubMerchants l.

Definition hasError (h : Hook) : bool :=
  let e := error (filterData h) in
  let str (o : option string) :=
    match o with Some s => negb (String.eqb s "") | None => false end in
  str (errorPartnerBanks e) || str (errorMerchants e)
  || str (errorSubMerchants e).

(** First render: [useEffect(() => { fetchPartnerBanks() },
    [fetchPartnerBanks])] runs once, the callback being stable. *)
Definition mount : Hook * list Request := fetchPartnerBanksIssued useState.

(** What can happen to a mounted hook: one of the eight actions, or one of
    the three kinds of request settling. *)
Inductive Event : Type :=
| SetPartnerBank (id0 : string)
| SetMerchant (id0 : string)
| SetSubMerchant (id0 : string)
| SetDateRange (start stop : string)
| SetTransactionType (type : string)
| SetSearchTerm (term : string)
| SetPerPage (perPage0 : string)
| ClearFilters
| PartnerBanksSettled (served : settled)
| MerchantsSettled (served : settled)
| SubMerchantsSettled (served : settled).

Definition step (h : Hook) (e : Event) : Hook * list Request :=
  match e with
  | SetPartnerBank id0 => setPartnerBank id0 h
  | SetMerchant id0 => setMerchant id0 h
  | SetSubMerchant id0 => (setSubMerchant id0 h, [])
  | SetDateRange start stop => (setDateRange start stop h, [])
  | SetTransactionType type => (setTransactionType type h, [])
  | SetSearchTerm term => (setSearchTerm term h, [])
  | SetPerPage perPage0 => (setPerPage perPage0 h, [])
  | ClearFilters => (clearFilters h, [])
  | PartnerBanksSettled served => (fetchPartnerBanksSettled served h, [])
  | MerchantsSettled served => (fetchMerchantsByPartnerBankSettled served h, [])
  | SubMerchantsSettled served =>
      (fetchSubMerchantsByMerchantSettled served h, [])
  end.

(** The state of a mounted hook after a sequence of events, in whatever
    order actions are taken and requests settle. *)
Definition run (events : list Event) : Hook :=
  fold_left (fun h e => fst (step h e)) events (fst mount).

(** An option list headed by the "All" sentinel. *)
Definition sentinelFirst (options : list FilterOption) : Prop :=
  head options = Some createInitialOption.

(** An event that replaces the partner-bank options: an answer to the
    partner-bank request that converts. *)
Definition replacesPartnerBanks (e : Event) : bool :=
  match e with
  | PartnerBanksSettled served =>
      match await served ≫= convertPartnerBanksToOptions with
      | Ok _ => true
      | Throw _ => false
      end
  | _ => false
  end.

(** The invariant of the hook: every option list is headed by it. *)
Definition sentinelHeaded (h : Hook) : Prop :=
  sentinelFirst (partnerBanks (filterData h))
  /\ sentinelFirst (merchants (filterData h))
  /\ sentinelFirst (subMerchants (filterData h)).

End TransactionFilters.

(** ** The API client (axios wrapper) *)

Module ApiClient.

(** The parts of [window] the client touches. *)
Record Window : Type := {
  localStorage : gmap string string;
  sessionStorage : gmap string string;
  location_href : string
}.

(** The global scope: [typeof window !== 'undefined'] holds in a browser
    and fails during server-side rendering. *)
Definition Global : Type := option Window.

(** The error axios rejects with: an [Error] whose [response] is set when
    the server answered. *)
Record AxiosError : Type := {
  name : string;
  message : string;
  response_status : option Z
}.

(** [localStorage.getItem('auth_token') ||
     sessionStorage.getItem('auth_token')] *)
Definition getAuthToken (g : Global) : option string :=
  match g with
  | Some w =>
      match localStorage w !! "auth_token" with
      | Some token =>
          if negb (String.eqb token "") then Some token
          else sessionStorage w !! "auth_token"
      | None => sessionStorage w !! "auth_token"
      end
  | None => None
  end.

Definition handleUnauthorized (g : Global) : Global :=
  match g with
  | Some w =>
      Some {| localStorage := delete "auth_token" (localStorage w);
              sessionStorage := delete "auth_token" (sessionStorage w);
              location_href := "/login" |}
  | None => None
  end.

Definition setAuthToken (token : string) (g : Global) : Global :=
  match g with
  | Some w =>
      Some {| localStorage := <["auth_token" := token]> (localStorage w);
              sessionStorage := sessionStorage w;
              location_href := location_href w |}
  | None => None
  end.

Definition removeAuthToken (g : Global) : Global :=
  match g with
  | Some w =>
      Some {| localStorage := delete "auth_token" (localStorage w);
              sessionStorage := delete "auth_token" (sessionStorage w);
              location_href := location_href w |}
  | None => None
  end.

(** The request interceptor: the [Authorization] header it adds, if any. *)
Definition authorization (g : Global) : option string :=
  match getAuthToken g with
  | Some token =>
      if negb (String.eqb token "") then Some ("Bearer " ++ token) else None
  | None => None
  end.

(** The rejection handler of the response interceptor: the global scope it
    leaves and the error it rejects with. *)
Definition onRejected (g : Global) (error : AxiosError)
  : Global * AxiosError :=
  let g1 :=
    match response_status error with
    | Some status => if (status =? 401)%Z then handleUnauthorized g else g
    | None => g
    end in
  let error1 :=
    if includes "JSON" (message error) || String.eqb (name error) "SyntaxError"
    then {| name := name error;
            message := "Server returned invalid JSON data. Please try again.";
            response_status := response_status error |}
    else error in
  (g1, error1).

(** What the transport delivers to the response interceptor: a response
    that passed the fulfilment handler, or an error. *)
Inductive Transport : Type :=
| Fulfilled (responseData : Js.value)
| Failed (error : AxiosError).

(** [get], [post], [put], [patch] and [delete] alike:
    [const response = await this.client.verb(...); return response.data]. *)
Definition request (g : Global) (t : Transport)
  : Global * (Js.value + AxiosError) :=
  match t with
  | Fulfilled responseData => (g, inl responseData)
  | Failed error =>
      let '(g1, error1) := onRejected g error in (g1, inr error1)
  end.

(** *** Request headers *)

(** The [headers] of [axios.create]. *)
Definition defaultHeaders : gmap string string :=
  {[ "Content-Type" := "application/json";
     "Accept" := "application/json, text/plain, */*" ]}.

(** The request interceptor, on the headers of the merged config:
    [if (token) config.headers.Authorization = `Bearer ${token}`]. *)
Definition onRequest (g : Global) (headers : gmap string string)
  : gmap string string :=
  match getAuthToken g with
  | Some token =>
      if negb (String.eqb token "")
      then <["Authorization" := "Bearer " ++ token]> headers
      else headers
  | None => headers
  end.

(** The headers that leave the client for a request made with the given
    per-request headers: those win over the instance defaults, then the
    interceptor runs. *)
Definition sentHeaders (g : Global) (perRequest : gmap string string)
  : gmap string string :=
  onRequest g (perRequest ∪ defaultHeaders).

(** The [requestConfig.headers] built by [requestWithSecretKey] from
    [config?.headers]. *)
Definition secretKeyHeaders (secretKey : string)
    (configHeaders : gmap string string) : gmap string string :=
  <["Accept" := "application/json, text/plain, */*"]>
    (<["Content-Type" := "application/json"]>
       (<["Authorization" := "Secret " ++ secretKey]> configHeaders)).

(** [localStorage.setItem], [localStorage.removeItem] and
    [sessionStorage.clear] behind [typeof window !== 'undefined']. *)
Definition localSetItem (k v : string) (g : Global) : Global :=
  match g with
  | Some w =>
      Some {| localStorage := <[k := v]> (localStorage w);
              sessionStorage := sessionStorage w;
              location_href := location_href w |}
  | None => None
  end.

Definition localRemoveItem (k : string) (g : Global) : Global :=
  match g with
  | Some w =>
      Some {| localStorage := delete k (localStorage w);
              sessionStorage := sessionStorage w;
              location_href := location_href w |}
  | None => None
  end.

Definition sessionClear (g : Global) : Global :=
  match g with
  | Some w =>
      Some {| localStorage := localStorage w;
              sessionStorage := ∅;
              location_href := location_href w |}
  | None => None
  end.

(** The error as the caller's [catch] sees it. *)
Definition toThrown (error : AxiosError) : thrown :=
  ErrorInstance (name error) (message error).

End ApiClient.

(** ** The normalisation policy as the specification words it *)

Module NormalisationPolicy.

Import CategorizedTransactions.

(** The five envelope shapes of the policy. *)
Inductive Shape : Type :=
| NestedData      (* (a) nested data array + pagination fields *)
| ItemsAndMeta    (* (b) items array + explicit meta *)
| BareArray       (* (c) the payload is itself an array *)
| TransactionsAndMeta (* (d) transactions array + meta *)
| FallbackScan.   (* (e) first array-valued property *)

(** A rule of the policy: when it applies, and the transactions and meta
    it yields. *)
Record Rule : Type := {
  shape : Shape;
  applies : value -> bool;
  yields : value -> list value * value
}.

Definition holdsArray (key : string) (payload : value) : bool :=
  isArray (prop payload key).

Definition priorityRules : list Rule :=
  [ {| shape := NestedData;
       applies := holdsArray "data";
       yields := fun payload =>
         (elements (prop payload "data"), paginationMeta payload) |};
    {| shape := ItemsAndMeta;
       applies := holdsArray "items";
       yields := fun payload =>
         (elements (prop payload "items"), prop payload "meta") |};
    {| shape := BareArray;
       applies := isArray;
       yields := fun payload => (elements payload, JNull) |};
    {| shape := TransactionsAndMeta;
       applies := holdsArray "transactions";
       yields := fun payload =>
         (elements (prop payload "transactions"), prop payload "meta") |};
    {| shape := FallbackScan;
       applies := fun _ => true;
       yields := fun payload =>
         (match List.find isArray (objectValues payload) with
          | Some found => elements found
          | None => []
          end, JNull) |} ].

(** Priority order, first match wins. *)
Definition firstMatchWins (payload : value) : list value * value :=
  match List.find (fun r => applies r payload) priorityRules with
  | Some r => yields r payload
  | None => ([], JNull)
  end.

(** No rule finds an array: no nested data array, no items, not itself an
    array, no transactions array, no array-valued property at all. *)
Definition noArrayFound (payload : value) : bool :=
  negb (holdsArray "data" payload)
  && negb (holdsArray "items" payload)
  && negb (isArray payload)
  && negb (holdsArray "transactions" payload)
  && forallb (fun val => negb (isArray val)) (objectValues payload).

(** A settled request the hook takes for a success: a successful
    envelope with a truthy payload. *)
Definition succeeds (served : settled) : bool :=
  match served with
  | Resolved response => isSuccess response && truthy (prop response "data")
  | Rejected _ => false
  end.

(** A value the option converters accept: an array without [null] or
    [undefined] entries. *)
Definition convertible (v : value) : bool :=
  match v with
  | JArr items => forallb (fun item => negb (isNullish item)) items
  | _ => false
  end.

End NormalisationPolicy.

(** ** lib/api/services/transactions.service.ts: request parameters *)

Module TransactionService.

Import CategorizedTransactions.

(** [params?: ...] spread into an object literal: nothing for [undefined]. *)
Definition spreadParams (params : option (list (string * value)))
  : list (string * value) :=
  match params with
  | Some o => spread [] o
  | None => []
  end.

(** [{ ...params, transactionType: 'money_in', paginateData: true }] *)
Definition getCollectionTransactions (params : option (list (string * value)))
  : list (string * value) :=
  spread (spreadParams params)
         [("transactionType", JStr "money_in"); ("paginateData", JBool true)].

Definition getReversalTransactions (params : option (list (string * value)))
  : list (string * value) :=
  spread (spreadParams params)
         [("transactionType", JStr "reversal"); ("paginateData", JBool true)].

Definition getPayoutTransactions (params : option (list (string * value)))
  : list (string * value) :=
  spread (spreadParams params)
         [("transactionType", JStr "money_out"); ("paginateData", JBool true)].

(** [{ ...params, status }] *)
Definition getTransactionsByStatus (status : string)
    (params : option (list (string * value))) : list (string * value) :=
  spread (spreadParams params) [("status", JStr status)].

(** [{ ...params, search: searchTerm }] *)
Definition searchTransactions (searchTerm : string)
    (params : option (list (string * value))) : list (string * value) :=
  spread (spreadParams params) [("search", JStr searchTerm)].

(** Every method has the same frame,
    [try { const response = await apiClient.get(...); return response }
     catch (error) { console.error(...); throw error }]:
    the promise the caller awaits, and the global scope the client leaves. *)
Definition serve (g : ApiClient.Global) (t : ApiClient.Transport)
  : ApiClient.Global * settled :=
  match ApiClient.request g t with
  | (g1, inl response) => (g1, Resolved response)
  | (g1, inr error) => (g1, Rejected (ApiClient.toThrown error))
  end.

End TransactionService.

(** ** lib/api/services/banks.service.ts: [getPartnerBanks] *)

Module BankService.

Import ApiClient.

Definition PARTNERS : string := "/banks/partners".
Definition PARTNER_BANKS : string := "/partner-banks".

(** The body of the outer [try] once the first request is answered. *)
Definition pickPartnerBanks (response : Js.value) : result Js.value :=
  data ← read response "data";
  if truthy data then
    if isArray data then mret data
    else if truthy data && isArray data then mret data
    else mret (JArr [])
  else if truthy data && isArray data then mret data
  else mret (JArr []).

(** [return fallbackResponse.data?.items || []] *)
Definition pickFallback (fallbackResponse : Js.value) : result Js.value :=
  data ← read fallbackResponse "data";
  mret (or (optProp data "items") (JArr [])).

(** What one call leaves behind: the global scope, the value returned or
    the error thrown, and the endpoints requested, in order.  The second
    transport is what the fallback endpoint would answer; it is consulted
    only if the fallback is requested. *)
Definition getPartnerBanks (g : Global) (primary fallback : Transport)
  : Global * result Js.value * list string :=
  let '(g1, answer) := request g primary in
  match (match answer with
         | inl response => pickPartnerBanks response
         | inr error => Throw (toThrown error)
         end) with
  | Ok partnerBanks => (g1, Ok partnerBanks, [PARTNERS])
  | Throw _ =>
      let '(g2, answer2) := request g1 fallback in
      (g2,
       match answer2 with
       | inl fallbackResponse => pickFallback fallbackResponse
       | inr fallbackError => Throw (toThrown fallbackError)
       end,
       [PARTNERS; PARTNER_BANKS])
  end.

(** The promise the filter hook awaits. *)
Definition settle (r : result Js.value) : settled :=
  match r with
  | Ok v => Resolved v
  | Throw t => Rejected t
  end.

End BankService.

(** ** lib/api/services/auth.service.ts *)

Module AuthService.

Import ApiClient.

(** [LoginResponse] *)
Record LoginResponse : Type := {
  token : string;
  user : Js.value;
  expiresIn : Z
}.

(** What the login request is answered with: an [ApiResponse] whose [data]
    may be missing, or an error. *)
Inductive LoginTransport : Type :=
| LoginFulfilled (data : option LoginResponse)
| LoginFailed (error : AxiosError).

(** [login] and [partnerBankLogin] alike: on a truthy [response.data?.token]
    the token is stored, and [response.data] is returned. *)
Definition login (g : Global) (t : LoginTransport)
  : Global * (option LoginResponse + AxiosError) :=
  match t with
  | LoginFulfilled data =>
      let g1 :=
        match data with
        | Some d =>
            if negb (String.eqb (token d) "")
            then localSetItem "auth_token" (token d) (setAuthToken (token d) g)
            else g
        | None => g
        end in
      (g1, inl data)
  | LoginFailed error =>
      let '(g1, error1) := onRejected g error in (g1, inr error1)
  end.

(** [logout]: nothing in its [try] can throw. *)
Definition logout (g : Global) : Global :=
  let g1 := removeAuthToken g in
  sessionClear (localRemoveItem "auth_token" (localRemoveItem "user_data" g1)).

Definition getAuthToken (g : Global) : option string :=
  match g with
  | None => None
  | Some w =>
      match localStorage w !! "auth_token" with
      | Some token =>
          if negb (String.eqb token "") then Some token
          else sessionStorage w !! "auth_token"
      | None => sessionStorage w !! "auth_token"
      end
  end.

(** [!!token] *)
Definition isAuthenticated (g : Global) : bool :=
  match g with
  | None => false
  | Some w =>
      match getAuthToken (Some w) with
      | Some token => negb (String.eqb token "")
      | None => false
      end
  end.

End AuthService.

(** ** The auth store: the logout flow *)

Module AuthStore.

Import ApiClient.

(** The non-null values of the store's [UserRole]. *)
Inductive Role : Type := Administrator | Merchant | PartnerBank | SubMerchant.

Record User : Type := {
  email : string;
  role : option Role;
  name : option string;
  id : option string;
  firstName : option string;
  lastName : option string
}.

(** The fields of [AuthState] that hold data. *)
Record AuthState : Type := {
  user : option User;
  isLoading : bool;
  error : option string;
  showLogoutModal : bool
}.

Definition initial : AuthState :=
  {| user := None; isLoading := false; error := None;
     showLogoutModal := false |}.

(** [mapApiUserRole] on the string value of the API's [UserRole] enum. *)
Definition mapApiUserRole (apiRole : string) : option Role :=
  if String.eqb apiRole "administrator" then Some Administrator
  else if String.eqb apiRole "merchant" then Some Merchant
  else if String.eqb apiRole "partner-bank" then Some PartnerBank
  else if String.eqb apiRole "submerchant" then Some SubMerchant
  else None.

(** The login route chosen from [get().user?.role]. *)
Definition loginRoute (userRole : option Role) : string :=
  match userRole with
  | Some Administrator => "/login/admin"
  | Some PartnerBank => "/login/partner-bank"
  | Some SubMerchant => "/login/submerchant"
  | _ => "/login/merchant"
  end.

(** [window.location.href = route], which is not behind a [typeof window]
    test: without a window the assignment throws. *)
Definition navigate (route : string) (g : Global) : Global * option thrown :=
  match g with
  | Some w =>
      (Some {| localStorage := localStorage w;
               sessionStorage := sessionStorage w;
               location_href := route |}, None)
  | None =>
      (None, Some (ErrorInstance "ReferenceError" "window is not defined"))
  end.

(** The store is created through
    [persist(..., { name: "blupay-auth-storage",
                    partialize: (state) => ({ user: state.user }) })]:
    every [set] of an action is followed by a write of the partialised
    state under that name in local storage.  [stringify] stands for the
    text written, [JSON.stringify({ state: { user }, version: 0 })]. *)
Section Persisted.

Variable stringify : option User -> string.

(** The write that follows a [set] which left the store in state [s];
    without a window there is no storage and nothing is written. *)
Definition persistUser (s : AuthState) (g : Global) : Global :=
  localSetItem "blupay-auth-storage" (stringify (user s)) g.

(** [logout: () => set({ showLogoutModal: true })] *)
Definition logout (g : Global) (s : AuthState) : Global * AuthState :=
  let s1 := {| user := user s; isLoading := isLoading s; error := error s;
               showLogoutModal := true |} in
  (persistUser s1 g, s1).

(** [clearError: () => set({ error: null })] *)
Definition clearError (g : Global) (s : AuthState) : Global * AuthState :=
  let s1 := {| user := user s; isLoading := isLoading s; error := None;
               showLogoutModal := showLogoutModal s |} in
  (persistUser s1 g, s1).

(** [setShowLogoutModal(show)]: the global scope and store it leaves, and
    what it throws, if anything. *)
Definition setShowLogoutModal (show : bool) (g : Global) (s : AuthState)
  : Global * AuthState * option thrown :=
  if negb show then
    let userRole := match user s with Some u => role u | None => None end in
    let g1 := AuthService.logout g in
    let g2 := localRemoveItem "user_data" g1 in
    let s1 := {| user := None; isLoading := isLoading s; error := error s;
                 showLogoutModal := false |} in
    let g3 := persistUser s1 g2 in
    let '(g4, thrown) := navigate (loginRoute userRole) g3 in
    (g4, s1, thrown)
  else
    let s1 := {| user := user s; isLoading := isLoading s; error := error s;
                 showLogoutModal := show |} in
    (persistUser s1 g, s1, None).

End Persisted.

End AuthStore.

(** ** The filter card that drives [useTransactionFilters] *)

Module TransactionFiltersComponent.

Import TransactionFilters.

(** The [disabled] attribute of the three selects. *)
Definition partnerBankSelectDisabled (h : Hook) : bool :=
  loadingPartnerBanks (loading (filterData h)).

Definition merchantSelectDisabled (h : Hook) : bool :=
  loadingMerchants (loading (filterData h))
  || String.eqb (partnerBankId (filters h)) "all".

Definition subMerchantSelectDisabled (h : Hook) : bool :=
  loadingSubMerchants (loading (filterData h))
  || String.eqb (merchantId (filters h)) "all".

(** The two date handlers pass the other end of the range through. *)
Definition handleStartDateChange (v : string) (h : Hook) : Hook :=
  setDateRange v (endDate (filters h)) h.

Definition handleEndDateChange (v : string) (h : Hook) : Hook :=
  setDateRange (startDate (filters h)) v h.

(** What the user can do on the card. *)
Inductive UiEvent : Type :=
| PartnerBankChange (v : string)
| MerchantChange (v : string)
| SubMerchantChange (v : string)
| StartDateChange (v : string)
| EndDateChange (v : string)
| TransactionTypeChange (v : string)
| ClearClick.

(** One user event; a disabled select does not fire its handler. *)
Definition uiStep (h : Hook) (e : UiEvent) : Hook * list Request :=
  match e with
  | PartnerBankChange v =>
      if partnerBankSelectDisabled h then (h, []) else setPartnerBank v h
  | MerchantChange v =>
      if merchantSelectDisabled h then (h, []) else setMerchant v h
  | SubMerchantChange v =>
      if subMerchantSelectDisabled h then (h, []) else (setSubMerchant v h, [])
  | StartDateChange v => (handleStartDateChange v h, [])
  | EndDateChange v => (handleEndDateChange v h, [])
  | TransactionTypeChange v => (setTransactionType v h, [])
  | ClearClick => (clearFilters h, [])
  end.

(** A mounted card sees user events and the answers to its requests. *)
Inductive CardEvent : Type :=
| User (e : UiEvent)
| PartnerBanksAnswered (served : settled)
| MerchantsAnswered (served : settled)
| SubMerchantsAnswered (served : settled).

Definition cardStep (h : Hook) (e : CardEvent) : Hook :=
  match e with
  | User u => fst (uiStep h u)
  | PartnerBanksAnswered served => fetchPartnerBanksSettled served h
  | MerchantsAnswered served => fetchMerchantsByPartnerBankSettled served h
  | SubMerchantsAnswered served => fetchSubMerchantsByMerchantSettled served h
  end.

Definition cardRun (events : list CardEvent) : Hook :=
  fold_left cardStep events (fst mount).

(** A merchant is selected only under a partner bank, a sub-merchant only
    under a merchant. *)
Definition cascadeConsistent (f : EnhancedTransactionFilters) : bool :=
  (String.eqb (merchantId f) "all" || negb (String.eqb (partnerBankId f) "all"))
  && (String.eqb (subMerchantId f) "all"
      || negb (String.eqb (merchantId f) "all")).

End TransactionFiltersComponent.

(** ** app/admin/dashboard/transactions/page.tsx: what the table is given *)

Module TransactionsPage.

Import CategorizedTransactions.

(** [totalPages={currentData.meta?.totalPages || 1}] *)
Definition totalPages (h : Hook) : value :=
  or (optProp (meta (currentData h)) "totalPages") (JNum 1).

(** [totalCount={currentData.meta?.total || 0}] *)
Definition totalCount (h : Hook) : value :=
  or (optProp (meta (currentData h)) "total") (JNum 0).

End TransactionsPage.

(** * Properties *)

(** ** The categorisation hook *)

Module CategorizedTransactionsFacts.

Import CategorizedTransactions NormalisationPolicy.

(** *** Setters and the slots they write *)

Lemma getCategoryState_setter_same c f h :
  getCategoryState c (getCategorySetter c f h) = f (getCategoryState c h).
Proof. by destruct c. Qed.

Lemma getCategoryState_setter_other a b f h :
  a <> b -> getCategoryState b (getCategorySetter a f h) = getCategoryState b h.
Proof. by destruct a, b. Qed.

Lemma currentCategory_setter c f h :
  currentCategory (getCategorySetter c f h) = currentCategory h.
Proof. by destruct c. Qed.

Lemma setter_compose c f g h :
  getCategorySetter c g (getCategorySetter c f h)
  = getCategorySetter c (fun prev => g (f prev)) h.
Proof. by destruct c. Qed.

(** Each half of a fetch is one write through the category's setter. *)
Lemma fetchIssued_writes c params h :
  exists f, fst (fetchIssued c params h) = getCategorySetter c f h.
Proof. unfold fetchIssued; simpl. eauto. Qed.

Lemma fetchSettled_writes c served h :
  exists f, fetchSettled c served h = getCategorySetter c f h.
Proof. unfold fetchSettled. destruct (tryBlock served); eauto. Qed.

Lemma fetchTransactions_writes c params served h :
  exists f, fst (fetchTransactions c params served h) = getCategorySetter c f h.
Proof.
  unfold fetchTransactions.
  destruct (fetchIssued_writes c params h) as [f Hf].
  destruct (fetchIssued c params h) as [h1 call] eqn:E; simpl in *; subst h1.
  destruct (fetchSettled_writes c served (getCategorySetter c f h)) as [g Hg].
  rewrite Hg, setter_compose. eauto.
Qed.

(** C1.  Fetching category [a] leaves the state record of every other
    category [b] as it was: the whole effect of [fetchTransactions(a,
    params)] on the hook is one write through [getCategorySetter(a)], which
    changes neither slot [b] nor the current-category pointer. *)
Theorem fetchTransactions_frame a b params served h :
  a <> b ->
  getCategoryState b (fst (fetchTransactions a params served h))
  = getCategoryState b h
  /\ currentCategory (fst (fetchTransactions a params served h))
     = currentCategory h
  /\ exists f,
       fst (fetchTransactions a params served h) = getCategorySetter a f h.
Proof.
  intros Hab.
  destruct (fetchTransactions_writes a params served h) as [f Hf].
  rewrite Hf. split; [|split].
  - by apply getCategoryState_setter_other.
  - apply currentCategory_setter.
  - by exists f.
Qed.

Lemma fetchTransactions_frame_witness :
  Collection <> Payout
  /\ getCategoryState Payout
       (fst (fetchTransactions Collection None
               (Resolved (JObj [("success", JBool true);
                                ("data", JArr [JNum 1; JNum 2])]))
               (useState Reversal)))
     = initialState.
Proof.
  split; [discriminate|].
  apply (fetchTransactions_frame Collection Payout None
           (Resolved (JObj [("success", JBool true);
                            ("data", JArr [JNum 1; JNum 2])]))
           (useState Reversal)).
  discriminate.
Defined.

(** The same holds for each half on its own, hence for fetches of
    different categories that overlap in time. *)
Lemma fetchIssued_frame a b params h :
  a <> b ->
  getCategoryState b (fst (fetchIssued a params h)) = getCategoryState b h.
Proof. intros. by apply getCategoryState_setter_other. Qed.

Lemma fetchSettled_frame a b served h :
  a <> b ->
  getCategoryState b (fetchSettled a served h) = getCategoryState b h.
Proof.
  intros. unfold fetchSettled.
  destruct (tryBlock served); by apply getCategoryState_setter_other.
Qed.

(** *** Switching the current category *)

(** C2, as stated, fails: from the state after mounting on [Collection],
    [setCurrentCategory('reversal')] makes the hook's own effect call the
    transaction service for reversals. *)
Lemma setCurrentCategory_fetches :
  snd (step (fst (mount Collection)) (SetCurrentCategory Reversal))
  = [ {| transactionType := REVERSAL;
         query := [("page", JNum 1); ("perPage", JNum 10)] |} ]
  /\ snd (step (fst (mount Collection)) (SetCurrentCategory Reversal)) <> [].
Proof. split; [reflexivity | discriminate]. Qed.

(** C2, amended.  [setCurrentCategory(c)] with [c] different from the
    current category makes the effect on [currentCategory] issue exactly one
    service call, for [c] with the default page 1 and perPage 10; with [c]
    equal to the current category nothing is issued.  [fetchTransactions]
    and [refetch] issue exactly one call each. *)
Theorem setCurrentCategory_effect h c :
  snd (step h (SetCurrentCategory c))
  = (if decide (c = currentCategory h) then []
     else [ {| transactionType := TRANSACTION_CATEGORIES c;
               query := [("page", JNum 1); ("perPage", JNum 10)] |} ])
  /\ currentCategory (fst (step h (SetCurrentCategory c))) = c
  /\ (forall params,
        snd (step h (FetchTransactions c params))
        = [ {| transactionType := TRANSACTION_CATEGORIES c;
               query := queryOf params |} ])
  /\ snd (step h Refetch)
     = [ {| transactionType := TRANSACTION_CATEGORIES (currentCategory h);
            query := [("page", JNum 1); ("perPage", JNum 10)] |} ].
Proof.
  split; [|split; [|split]].
  - unfold step, useEffect; simpl.
    destruct (decide (c = currentCategory h)) as [->|Hne].
    + by rewrite bool_decide_true.
    + by rewrite bool_decide_false.
  - unfold step, useEffect; simpl.
    case_bool_decide; simpl; [done|]. apply currentCategory_setter.
  - intros params. unfold step, useEffect; simpl.
    rewrite currentCategory_setter. by rewrite bool_decide_true.
  - unfold step, useEffect, refetch; simpl.
    rewrite currentCategory_setter. by rewrite bool_decide_true.
Qed.

(** Settling a request never issues another one. *)
Lemma settled_issues_nothing h c served :
  snd (step h (Settled c served)) = [].
Proof.
  unfold step, useEffect.
  destruct (fetchSettled_writes c served h) as [f ->].
  rewrite currentCategory_setter. by rewrite bool_decide_true.
Qed.

(** *** The settling half, branch by branch *)

Lemma or_same v : or v v = v.
Proof. unfold or. by destruct (truthy v). Qed.

Lemma isArray_truthy v : isArray v = true -> truthy v = true.
Proof. by destruct v. Qed.

Lemma array_test v : truthy v && isArray v = isArray v.
Proof. destruct v; simpl; by rewrite ?andb_false_r. Qed.

Lemma isSuccess_not_nullish response :
  isSuccess response = true -> isNullish response = false.
Proof. by destruct response. Qed.

(** A successful envelope with a truthy payload: the slot is overwritten
    with the normalised transactions and meta. *)
Lemma tryBlock_success response :
  isSuccess response = true ->
  truthy (prop response "data") = true ->
  tryBlock (Resolved response)
  = Ok (fun _ =>
          {| data := fst (extract (prop response "data"));
             meta := or (snd (extract (prop response "data")))
                        (defaultMeta (fst (extract (prop response "data"))));
             loading := false;
             error := None |}).
Proof.
  intros Hs Ht. unfold tryBlock; simpl.
  unfold read. rewrite (isSuccess_not_nullish _ Hs); simpl.
  rewrite or_same, Hs, Ht; simpl.
  by destruct (extract (prop response "data")).
Qed.

(** Any other envelope that can be read: the slot keeps its data and meta
    and gets the fixed failure message. *)
Lemma tryBlock_failure response :
  isNullish response = false ->
  isSuccess response && truthy (prop response "data") = false ->
  tryBlock (Resolved response)
  = Ok (fun prev =>
          {| data := data prev; meta := meta prev;
             loading := false;
             error := Some "Failed to fetch transactions" |}).
Proof.
  intros Hn Hf. unfold tryBlock; simpl.
  unfold read. rewrite Hn; simpl.
  by rewrite or_same, Hf.
Qed.

Lemma tryBlock_rejected t : tryBlock (Rejected t) = Throw t.
Proof. reflexivity. Qed.

(** What a whole fetch leaves in its own slot. *)
Lemma fetchTransactions_slot c params served h :
  getCategoryState c (fst (fetchTransactions c params served h))
  = match tryBlock served with
    | Ok update => update
    | Throw t => catchBlock t
    end {| data := data (getCategoryState c h);
           meta := meta (getCategoryState c h);
           loading := true; error := None |}.
Proof.
  unfold fetchTransactions, fetchIssued, fetchSettled; simpl.
  destruct (tryBlock served);
    by rewrite setter_compose, getCategoryState_setter_same.
Qed.

(** *** Shape (a) and [totalPages] *)

(** C3, as stated, fails: with [lastPage = 0] in a shape-(a) payload the
    stored [totalPages] is 1. *)
Lemma totalPages_differs_from_lastPage :
  let payload := JObj [("data", JArr []); ("currentPage", JNum 1);
                       ("perPage", JNum 10); ("total", JNum 0);
                       ("lastPage", JNum 0)] in
  let response := JObj [("success", JBool true); ("data", payload)] in
  let stored :=
    meta (getCategoryState Collection
            (fst (fetchTransactions Collection None (Resolved response)
                    (useState Collection)))) in
  isSuccess response = true
  /\ holdsArray "data" payload = true
  /\ prop payload "lastPage" = JNum 0
  /\ prop stored "totalPages" = JNum 1
  /\ prop stored "totalPages" <> prop payload "lastPage".
Proof. repeat split; discriminate. Qed.

(** C3, amended.  For a successful response whose payload has shape (a),
    the stored [meta.totalPages] is the server's [lastPage] when that field
    is truthy (a non-zero number), and 1 when it is absent, zero or
    otherwise falsy. *)
Theorem totalPages_lastPage_or_one c params response h :
  isSuccess response = true ->
  holdsArray "data" (prop response "data") = true ->
  prop (meta (getCategoryState c
                (fst (fetchTransactions c params (Resolved response) h))))
       "totalPages"
  = if truthy (prop (prop response "data") "lastPage")
    then prop (prop response "data") "lastPage"
    else JNum 1.
Proof.
  intros Hs Ha. unfold holdsArray in Ha.
  assert (Ht : truthy (prop response "data") = true).
  { destruct (prop response "data"); try discriminate; reflexivity. }
  rewrite fetchTransactions_slot, (tryBlock_success _ Hs Ht); simpl.
  unfold extract. rewrite array_test, Ha; simpl.
  reflexivity.
Qed.

Lemma totalPages_lastPage_or_one_witness :
  let response :=
    JObj [("status", JStr "success");
          ("data", JObj [("data", JArr [JStr "t1"; JStr "t2"]);
                         ("currentPage", JNum 2); ("perPage", JNum 2);
                         ("total", JNum 14); ("lastPage", JNum 7)])] in
  isSuccess response = true
  /\ holdsArray "data" (prop response "data") = true
  /\ prop (meta (getCategoryState Payout
                   (fst (fetchTransactions Payout None (Resolved response)
                           (useState Collection)))))
          "totalPages"
     = JNum 7.
Proof.
  intros response.
  split; [reflexivity|]. split; [reflexivity|].
  apply (totalPages_lastPage_or_one Payout None response
           (useState Collection)); reflexivity.
Defined.

(** *** The fallback scan and the priority order *)

Lemma filter_arrays_find (vals : list value) :
  match filter (fun val => isArray val = true) vals with
  | first :: _ => elements first
  | [] => []
  end
  = match List.find isArray vals with
    | Some found => elements found
    | None => []
    end.
Proof.
  induction vals as [|v vals IH]; [reflexivity|].
  rewrite filter_cons; simpl.
  destruct (isArray v) eqn:E.
  - by rewrite decide_True.
  - by rewrite decide_False.
Qed.

Lemma find_none_no_arrays (vals : list value) :
  forallb (fun val => negb (isArray val)) vals = true ->
  List.find isArray vals = None.
Proof.
  induction vals as [|v vals IH]; simpl; [done|].
  destruct (isArray v); simpl; [discriminate | exact IH].
Qed.

(** The first element a [find] returns splits the list it searched. *)
Lemma find_splits {A : Type} (p : A -> bool) (l : list A) (x : A) :
  List.find p l = Some x ->
  exists earlier later,
    l = (earlier ++ x :: later)%list
    /\ p x = true
    /\ Forall (fun y => p y = false) earlier.
Proof.
  induction l as [|a l IH]; simpl; [discriminate|].
  destruct (p a) eqn:E.
  - intros [= ->]. exists [], l. by repeat split.
  - intros Hf. destruct (IH Hf) as (earlier & later & -> & Hx & Hall).
    exists (a :: earlier), later. repeat split; auto.
Qed.

(** The cascade of the source is the priority list read front to back. *)
Lemma extract_firstMatchWins payload : extract payload = firstMatchWins payload.
Proof.
  unfold extract, firstMatchWins, priorityRules; simpl.
  rewrite !array_test. unfold holdsArray.
  destruct (isArray (prop payload "data")); [reflexivity|].
  destruct (isArray (prop payload "items")); [reflexivity|].
  destruct (isArray payload); [reflexivity|].
  destruct (isArray (prop payload "transactions")); [reflexivity|].
  pose proof (filter_arrays_find (objectValues payload)) as H.
  destruct (filter (fun val => isArray val = true) (objectValues payload));
    simpl; by rewrite <- H.
Qed.

(** C5.  The transactions are extracted by trying the five shapes in the
    order (a) nested data array, (b) items array, (c) the payload itself an
    array, (d) transactions array, (e) scan for the first array-valued
    property, the first match winning: the rule that produces the result
    applies, and no rule before it in that order does. *)
Theorem extract_priority_order payload :
  map shape priorityRules
  = [NestedData; ItemsAndMeta; BareArray; TransactionsAndMeta; FallbackScan]
  /\ extract payload = firstMatchWins payload
  /\ exists earlier r later,
       priorityRules = (earlier ++ r :: later)%list
       /\ applies r payload = true
       /\ Forall (fun q => applies q payload = false) earlier
       /\ extract payload = yields r payload.
Proof.
  split; [reflexivity|]. split; [apply extract_firstMatchWins|].
  rewrite extract_firstMatchWins. unfold firstMatchWins.
  destruct (List.find (fun r => applies r payload) priorityRules) as [r|] eqn:E.
  - destruct (find_splits _ _ _ E) as (earlier & later & Hl & Hr & Hall).
    by exists earlier, r, later.
  - exfalso. revert E. unfold priorityRules; simpl.
    repeat match goal with |- context [if ?b then _ else _] => destruct b end;
      discriminate.
Qed.

(** What a successful fetch stores as data is the first match's array. *)
Lemma fetchTransactions_data_firstMatch c params response h :
  isSuccess response = true ->
  truthy (prop response "data") = true ->
  data (getCategoryState c
          (fst (fetchTransactions c params (Resolved response) h)))
  = fst (firstMatchWins (prop response "data")).
Proof.
  intros Hs Ht.
  rewrite fetchTransactions_slot, (tryBlock_success _ Hs Ht); simpl.
  by rewrite extract_firstMatchWins.
Qed.

(** *** No array anywhere *)

Lemma extract_no_array payload :
  noArrayFound payload = true -> extract payload = ([], JNull).
Proof.
  unfold noArrayFound. rewrite !andb_true_iff, !negb_true_iff.
  intros ((((Hd & Hi) & Hs) & Ht) & Hv).
  rewrite extract_firstMatchWins.
  unfold firstMatchWins, priorityRules; simpl.
  rewrite Hd, Hi, Hs, Ht. simpl.
  by rewrite (find_none_no_arrays _ Hv).
Qed.

(** C4, as stated, fails: for the successful envelope
    [{success: true, data: {}}] the stored meta has [totalPages = 0],
    not 1. *)
Lemma empty_payload_totalPages_zero :
  let response := JObj [("success", JBool true); ("data", JObj [])] in
  let stored :=
    getCategoryState Collection
      (fst (fetchTransactions Collection None (Resolved response)
              (useState Collection))) in
  isSuccess response = true
  /\ noArrayFound (prop response "data") = true
  /\ data stored = []
  /\ meta stored = JObj [("page", JNum 1); ("perPage", JNum 10);
                         ("total", JNum 0); ("totalPages", JNum 0)]
  /\ meta stored <> JObj [("page", JNum 1); ("perPage", JNum 10);
                          ("total", JNum 0); ("totalPages", JNum 1)].
Proof. repeat split; discriminate. Qed.

(** C4, amended.  For a successful envelope in which no rule finds an
    array, the fetch completes without throwing; when the payload is truthy
    the category's state becomes [data = []] with
    [meta = {page: 1, perPage: 10, total: 0, totalPages: 0}], loading
    cleared and no error; when the payload is falsy (absent, [null], 0, the
    empty string) the category keeps its data and meta and gets the error
    "Failed to fetch transactions". *)
Theorem no_array_empty_data c params response h :
  isSuccess response = true ->
  noArrayFound (prop response "data") = true ->
  (exists update, tryBlock (Resolved response) = Ok update)
  /\ getCategoryState c
       (fst (fetchTransactions c params (Resolved response) h))
     = if truthy (prop response "data")
       then {| data := [];
               meta := JObj [("page", JNum 1); ("perPage", JNum 10);
                             ("total", JNum 0); ("totalPages", JNum 0)];
               loading := false;
               error := None |}
       else {| data := data (getCategoryState c h);
               meta := meta (getCategoryState c h);
               loading := false;
               error := Some "Failed to fetch transactions" |}.
Proof.
  intros Hs Hn. rewrite fetchTransactions_slot.
  destruct (truthy (prop response "data")) eqn:Ht.
  - rewrite (tryBlock_success _ Hs Ht), (extract_no_array _ Hn).
    split; [eauto | reflexivity].
  - rewrite (tryBlock_failure _ (isSuccess_not_nullish _ Hs)).
    + split; [eauto | reflexivity].
    + by rewrite Ht, andb_false_r.
Qed.

Lemma no_array_empty_data_witness :
  let response :=
    JObj [("success", JBool true);
          ("data", JObj [("count", JNum 3); ("note", JStr "none")])] in
  isSuccess response = true
  /\ noArrayFound (prop response "data") = true
  /\ getCategoryState Reversal
       (fst (fetchTransactions Reversal None (Resolved response)
               (useState Collection)))
     = {| data := [];
          meta := JObj [("page", JNum 1); ("perPage", JNum 10);
                        ("total", JNum 0); ("totalPages", JNum 0)];
          loading := false;
          error := None |}.
Proof.
  intros response.
  split; [reflexivity|]. split; [reflexivity|].
  apply (no_array_empty_data Reversal None response (useState Collection));
    reflexivity.
Defined.

(** *** Completion and the catch path *)

Lemma fetchSettled_clears_loading c served h :
  loading (getCategoryState c (fetchSettled c served h)) = false.
Proof.
  unfold fetchSettled.
  destruct (tryBlock served) as [update|t] eqn:E;
    rewrite getCategoryState_setter_same; [|reflexivity].
  revert E. unfold tryBlock.
  destruct served as [response|t]; simpl; [|discriminate].
  unfold read. destruct (isNullish response); simpl; [discriminate|].
  destruct (isSuccess response && truthy _).
  - destruct (extract _). by intros [= <-].
  - by intros [= <-].
Qed.

(** A thrown value that is not an [Error] gives the fixed message. *)
Lemma fetchTransactions_non_error c params v h :
  error (getCategoryState c
           (fst (fetchTransactions c params (Rejected (NonError v)) h)))
  = Some "An unknown error occurred".
Proof. by rewrite fetchTransactions_slot. Qed.

(** C9.  Whatever the outcome of [fetchTransactions(c, params)] (a
    normalised response, an unsuccessful envelope, or an exception), the
    loading flag of category [c] is false when the call completes; when the
    underlying call throws an exception with message [message], the error
    field of [c] is that message and its data and meta are what they were
    before the call. *)
Theorem fetchTransactions_completion :
  (forall c params served h,
     loading (getCategoryState c
                (fst (fetchTransactions c params served h))) = false)
  /\ (forall c params name message h,
        let after :=
          getCategoryState c
            (fst (fetchTransactions c params
                    (Rejected (ErrorInstance name message)) h)) in
        error after = Some message
        /\ data after = data (getCategoryState c h)
        /\ meta after = meta (getCategoryState c h)
        /\ loading after = false).
Proof.
  split.
  - intros c params served h. unfold fetchTransactions.
    destruct (fetchIssued c params h) as [h1 call]; simpl.
    apply fetchSettled_clears_loading.
  - intros c params name message h after. subst after.
    by rewrite fetchTransactions_slot.
Qed.

End CategorizedTransactionsFacts.

(** ** The cascading filter hook *)

Module TransactionFiltersFacts.

Import TransactionFilters.

(** C6.  [setPartnerBank(id)] sets [partnerBankId] to [id] and forces
    [merchantId] and [subMerchantId] to "all", resets the merchant and
    sub-merchant option lists to the single "All" sentinel, and issues
    exactly one merchant-options request, scoped to [id], when [id] is not
    "all"; for "all" it issues none and the merchant list stays at the
    sentinel.  The other filter fields and the partner-bank list are kept. *)
Theorem setPartnerBank_cascade (id0 : string) (h : Hook) :
  let after := fst (setPartnerBank id0 h) in
  partnerBankId (filters after) = id0
  /\ merchantId (filters after) = "all"
  /\ subMerchantId (filters after) = "all"
  /\ merchants (filterData after)
     = [ {| id := JStr "all"; name := JStr "-- All --"; value := JStr "all" |} ]
  /\ subMerchants (filterData after)
     = [ {| id := JStr "all"; name := JStr "-- All --"; value := JStr "all" |} ]
  /\ snd (setPartnerBank id0 h)
     = (if decide (id0 = "all") then []
        else [GetMerchantsByPartnerBank id0])
  /\ snd (step h (SetPartnerBank id0)) = snd (setPartnerBank id0 h)
  /\ partnerBanks (filterData after) = partnerBanks (filterData h)
  /\ (startDate (filters after), endDate (filters after),
      transactionType (filters after), searchTerm (filters after),
      perPage (filters after))
     = (startDate (filters h), endDate (filters h),
        transactionType (filters h), searchTerm (filters h),
        perPage (filters h)).
Proof.
  unfold step, setPartnerBank, fetchMerchantsByPartnerBankIssued.
  destruct (decide (id0 = "all")) as [->|Hne].
  - simpl. by repeat split.
  - apply String.eqb_neq in Hne. rewrite Hne. simpl. by repeat split.
Qed.

(** The example of the specification: from partner bank "b1" and merchant
    "m1", [setPartnerBank("all")]. *)
Example setPartnerBank_all_example :
  let h := fst (step (fst (step (fst mount) (SetPartnerBank "b1")))
                     (SetMerchant "m1")) in
  let after := fst (step h (SetPartnerBank "all")) in
  (partnerBankId (filters h), merchantId (filters h)) = ("b1", "m1")
  /\ (partnerBankId (filters after), merchantId (filters after),
      subMerchantId (filters after)) = ("all", "all", "all")
  /\ merchants (filterData after) = [createInitialOption]
  /\ subMerchants (filterData after) = [createInitialOption]
  /\ snd (step h (SetPartnerBank "all")) = [].
Proof. by repeat split. Qed.

(** C7.  [clearFilters()] puts every filter field back to its default,
    resets the merchant and sub-merchant option lists to the single "All"
    sentinel, keeps the partner-bank option list, and issues no request. *)
Theorem clearFilters_defaults (h : Hook) :
  filters (clearFilters h)
  = {| partnerBankId := "all"; merchantId := "all"; subMerchantId := "all";
       startDate := ""; endDate := ""; transactionType := "all";
       searchTerm := ""; perPage := "10" |}
  /\ merchants (filterData (clearFilters h))
     = [ {| id := JStr "all"; name := JStr "-- All --"; value := JStr "all" |} ]
  /\ subMerchants (filterData (clearFilters h))
     = [ {| id := JStr "all"; name := JStr "-- All --"; value := JStr "all" |} ]
  /\ partnerBanks (filterData (clearFilters h)) = partnerBanks (filterData h)
  /\ step h ClearFilters = (clearFilters h, []).
Proof. by repeat split. Qed.

(** *** The sentinel heads every option list *)

Lemma convertPartnerBanksToOptions_head v options :
  convertPartnerBanksToOptions v = Ok options -> sentinelFirst options.
Proof.
  unfold convertPartnerBanksToOptions.
  destruct (arrayMap _ _ v); simpl; [|discriminate]. by intros [= <-].
Qed.

Lemma convertMerchantsToOptions_head v options :
  convertMerchantsToOptions v = Ok options -> sentinelFirst options.
Proof.
  unfold convertMerchantsToOptions.
  destruct (arrayMap _ _ v); simpl; [|discriminate]. by intros [= <-].
Qed.

Lemma convertSubMerchantsToOptions_head v options :
  convertSubMerchantsToOptions v = Ok options -> sentinelFirst options.
Proof.
  unfold convertSubMerchantsToOptions.
  destruct (arrayMap _ _ v); simpl; [|discriminate]. by intros [= <-].
Qed.

Lemma sentinelHeaded_mount : sentinelHeaded (fst mount).
Proof. by repeat split. Qed.

Lemma sentinelHeaded_step h e :
  sentinelHeaded h -> sentinelHeaded (fst (step h e)).
Proof.
  intros (Hb & Hm & Hs).
  destruct e as [id0|id0| | | | | | |served|served|served]; simpl;
    try by repeat split.
  - unfold setPartnerBank, fetchMerchantsByPartnerBankIssued.
    destruct (String.eqb id0 "all"); by repeat split.
  - unfold setMerchant, fetchSubMerchantsByMerchantIssued.
    destruct (String.eqb id0 "all"); by repeat split.
  - unfold fetchPartnerBanksSettled.
    destruct (_ ≫= _) as [options|t] eqn:E; [|by repeat split].
    repeat split; try done. simpl.
    destruct served as [v|t]; simpl in E; [|discriminate].
    by apply (convertPartnerBanksToOptions_head v).
  - unfold fetchMerchantsByPartnerBankSettled.
    destruct (_ ≫= _) as [options|t] eqn:E; [|by repeat split].
    repeat split; try done. simpl.
    destruct served as [v|t]; simpl in E; [|discriminate].
    by apply (convertMerchantsToOptions_head v).
  - unfold fetchSubMerchantsByMerchantSettled.
    destruct (_ ≫= _) as [options|t] eqn:E; [|by repeat split].
    repeat split; try done. simpl.
    destruct served as [v|t]; simpl in E; [|discriminate].
    by apply (convertSubMerchantsToOptions_head v).
Qed.

Lemma sentinelHeaded_fold events h :
  sentinelHeaded h ->
  sentinelHeaded (fold_left (fun h e => fst (step h e)) events h).
Proof.
  revert h. induction events as [|e events IH]; intros h Hh; simpl; [done|].
  apply IH. by apply sentinelHeaded_step.
Qed.

(** C10, as stated, fails in its last part: requests are not cancelled,
    and an answer that converts replaces the list but keeps the error
    string.  Select partner bank "b1", then "b2"; let the request for "b2"
    be rejected and the one for "b1" be answered after that: with "b2"
    selected, the merchants of "b1" stand next to the error string. *)
Lemma stale_merchants_beside_error :
  let b1_merchants :=
    JArr [JObj [("id", JStr "m1"); ("businessName", JStr "Shop of b1")]] in
  let events :=
    [SetPartnerBank "b1"; SetPartnerBank "b2";
     MerchantsSettled (Rejected (ErrorInstance "Error" "Network Error"));
     MerchantsSettled (Resolved b1_merchants)] in
  snd (step (fst mount) (SetPartnerBank "b1")) = [GetMerchantsByPartnerBank "b1"]
  /\ snd (step (run [SetPartnerBank "b1"]) (SetPartnerBank "b2"))
     = [GetMerchantsByPartnerBank "b2"]
  /\ partnerBankId (filters (run events)) = "b2"
  /\ merchants (filterData (run events))
     = [createInitialOption;
        {| id := JStr "m1"; name := JStr "Shop of b1"; value := JStr "m1" |}]
  /\ errorMerchants (error (filterData (run events))) = Some "Network Error"
  /\ merchants (filterData (run events)) <> [createInitialOption].
Proof. repeat split; discriminate. Qed.

(** C10, amended.  After every sequence of operations, each of the three
    option lists is non-empty and has the "All" sentinel as its first
    element.  When a merchant-options or sub-merchant-options fetch fails,
    whether the service rejects or its answer cannot be converted, the
    state that settlement leaves has the list it would have filled reset to
    exactly the single sentinel, next to the error string.  An answer that
    converts replaces the list and leaves the error string as it was. *)
Theorem option_lists_sentinel :
  (forall events,
     sentinelFirst (partnerBanks (filterData (run events)))
     /\ sentinelFirst (merchants (filterData (run events)))
     /\ sentinelFirst (subMerchants (filterData (run events)))
     /\ partnerBanks (filterData (run events)) <> []
     /\ merchants (filterData (run events)) <> []
     /\ subMerchants (filterData (run events)) <> [])
  /\ (forall served h,
        merchants (filterData (fetchMerchantsByPartnerBankSettled served h))
        = match await served ≫= convertMerchantsToOptions with
          | Ok options => options
          | Throw _ => [createInitialOption]
          end
        /\ errorMerchants
             (error (filterData (fetchMerchantsByPartnerBankSettled served h)))
           = match await served ≫= convertMerchantsToOptions with
             | Ok _ => errorMerchants (error (filterData h))
             | Throw t => Some (messageOr "Failed to fetch merchants" t)
             end)
  /\ (forall t h,
        merchants
          (filterData (fetchMerchantsByPartnerBankSettled (Rejected t) h))
        = [ {| id := JStr "all"; name := JStr "-- All --";
               value := JStr "all" |} ]
        /\ errorMerchants
             (error (filterData
                       (fetchMerchantsByPartnerBankSettled (Rejected t) h)))
           = Some (messageOr "Failed to fetch merchants" t))
  /\ (forall served h,
        subMerchants (filterData (fetchSubMerchantsByMerchantSettled served h))
        = match await served ≫= convertSubMerchantsToOptions with
          | Ok options => options
          | Throw _ => [createInitialOption]
          end
        /\ errorSubMerchants
             (error (filterData (fetchSubMerchantsByMerchantSettled served h)))
           = match await served ≫= convertSubMerchantsToOptions with
             | Ok _ => errorSubMerchants (error (filterData h))
             | Throw t => Some (messageOr "Failed to fetch sub-merchants" t)
             end)
  /\ (forall t h,
        subMerchants
          (filterData (fetchSubMerchantsByMerchantSettled (Rejected t) h))
        = [ {| id := JStr "all"; name := JStr "-- All --";
               value := JStr "all" |} ]
        /\ errorSubMerchants
             (error (filterData
                       (fetchSubMerchantsByMerchantSettled (Rejected t) h)))
           = Some (messageOr "Failed to fetch sub-merchants" t)).
Proof.
  split; [|split; [|split; [|split]]].
  - intros events.
    destruct (sentinelHeaded_fold events (fst mount) sentinelHeaded_mount)
      as (Hb & Hm & Hs).
    fold (run events) in Hb, Hm, Hs. unfold sentinelFirst in *.
    repeat split; try done.
    + by destruct (partnerBanks (filterData (run events))).
    + by destruct (merchants (filterData (run events))).
    + by destruct (subMerchants (filterData (run events))).
  - intros served h. unfold fetchMerchantsByPartnerBankSettled.
    by destruct (_ ≫= _).
  - by intros t h.
  - intros served h. unfold fetchSubMerchantsByMerchantSettled.
    by destruct (_ ≫= _).
  - by intros t h.
Qed.

(** With one request in flight at a time, stale options do not survive a
    failure: merchants loaded for one partner bank are gone once the fetch
    for the next one is rejected. *)
Example stale_merchants_dropped :
  let loaded :=
    run [SetPartnerBank "b1";
         MerchantsSettled
           (Resolved (JArr [JObj [("id", JStr "m1");
                                  ("businessName", JStr "Shop")]]))] in
  let failed :=
    fst (step (fst (step loaded (SetPartnerBank "b2")))
              (MerchantsSettled
                 (Rejected (ErrorInstance "Error" "Network Error")))) in
  merchants (filterData loaded)
  = [createInitialOption;
     {| id := JStr "m1"; name := JStr "Shop"; value := JStr "m1" |}]
  /\ merchants (filterData failed) = [createInitialOption]
  /\ errorMerchants (error (filterData failed)) = Some "Network Error".
Proof. by repeat split. Qed.

End TransactionFiltersFacts.

(** ** The API client *)

Module ApiClientFacts.

Import ApiClient.

Lemma handleUnauthorized_browser w :
  handleUnauthorized (Some w)
  = Some {| localStorage := delete "auth_token" (localStorage w);
            sessionStorage := delete "auth_token" (sessionStorage w);
            location_href := "/login" |}.
Proof. reflexivity. Qed.

(** Outside a browser there is neither storage nor a location to touch. *)
Lemma handleUnauthorized_server : handleUnauthorized None = None.
Proof. reflexivity. Qed.

(** After a 401 the request interceptor finds no token to attach. *)
Lemma getAuthToken_after_unauthorized g :
  getAuthToken (handleUnauthorized g) = None.
Proof.
  destruct g as [w|]; simpl; [|done].
  by rewrite !lookup_delete_eq.
Qed.

(** C8.  When a request made through the client is answered with HTTP
    status 401, the client removes the [auth_token] entry from both
    [localStorage] and [sessionStorage] (leaving every other entry), sets
    the location to "/login", and still rejects with the error: same name
    and status, with the message either untouched or replaced by the
    invalid-JSON text. *)
Theorem unauthorized_clears_credentials (w : Window) (error : AxiosError) :
  response_status error = Some 401%Z ->
  exists w' error',
    request (Some w) (Failed error) = (Some w', inr error')
    /\ localStorage w' !! "auth_token" = None
    /\ sessionStorage w' !! "auth_token" = None
    /\ localStorage w' = delete "auth_token" (localStorage w)
    /\ sessionStorage w' = delete "auth_token" (sessionStorage w)
    /\ location_href w' = "/login"
    /\ name error' = name error
    /\ response_status error' = Some 401%Z
    /\ (message error' = message error
        \/ message error'
           = "Server returned invalid JSON data. Please try again.").
Proof.
  intros H401. unfold request, onRejected. rewrite H401; simpl.
  eexists _, _. split; [reflexivity|]. simpl.
  rewrite !lookup_delete_eq. repeat split; try done.
  - by destruct (_ || _).
  - by destruct (_ || _).
  - destruct (_ || _); simpl; auto.
Qed.

Lemma unauthorized_clears_credentials_witness :
  let w := {| localStorage := {[ "auth_token" := "abc"; "theme" := "dark" ]};
              sessionStorage := {[ "auth_token" := "xyz" ]};
              location_href := "/admin/dashboard/transactions" |} in
  let error := {| name := "AxiosError";
                  message := "Request failed with status code 401";
                  response_status := Some 401%Z |} in
  response_status error = Some 401%Z
  /\ exists w' error',
       request (Some w) (Failed error) = (Some w', inr error')
       /\ localStorage w' !! "auth_token" = None
       /\ sessionStorage w' !! "auth_token" = None
       /\ localStorage w' = delete "auth_token" (localStorage w)
       /\ sessionStorage w' = delete "auth_token" (sessionStorage w)
       /\ location_href w' = "/login"
       /\ name error' = name error
       /\ response_status error' = Some 401%Z
       /\ (message error' = message error
           \/ message error'
              = "Server returned invalid JSON data. Please try again.").
Proof.
  intros w error. split; [reflexivity|].
  apply (unauthorized_clears_credentials w error). reflexivity.
Defined.

(** Any other failure leaves storage and location alone. *)
Lemma other_status_keeps_credentials g error :
  response_status error <> Some 401%Z ->
  fst (request g (Failed error)) = g.
Proof.
  intros Hne. unfold request, onRejected.
  destruct (response_status error) as [status|] eqn:E; simpl; [|done].
  destruct (status =? 401)%Z eqn:Es; [|done].
  apply Z.eqb_eq in Es. by subst.
Qed.

End ApiClientFacts.

(** ** Request parameters *)

Module QueryFacts.

Import CategorizedTransactions TransactionService.

Lemma lookup_assign1 k k' v props :
  lookup_prop k' (assign1 k v props)
  = if String.eqb k' k then v else lookup_prop k' props.
Proof.
  induction props as [|[k0 v0] props IH]; simpl; [done|].
  destruct (String.eqb k k0) eqn:E; simpl.
  - apply String.eqb_eq in E; subst k0. by destruct (String.eqb k' k).
  - rewrite IH. destruct (String.eqb k' k) eqn:E'; [|done].
    apply String.eqb_eq in E'; subst k'. by rewrite E.
Qed.

Lemma hasOwn_false_lookup k props :
  hasOwn k props = false -> lookup_prop k props = JUndefined.
Proof.
  induction props as [|[k0 v0] props IH]; simpl; [done|].
  destruct (String.eqb k k0); simpl; [discriminate | exact IH].
Qed.

Lemma hasOwn_false_notin k props :
  k ∉ map fst props -> hasOwn k props = false.
Proof.
  induction props as [|[k0 v0] props IH]; simpl; [done|].
  intros Hn. apply not_elem_of_cons in Hn as [Hne Hn].
  apply String.eqb_neq in Hne. rewrite Hne. simpl. by apply IH.
Qed.

(** Reading a key of [{...target, ...source}]: [source] wins. *)
Lemma lookup_spread k target source :
  NoDup (map fst source) ->
  lookup_prop k (spread target source)
  = if hasOwn k source then lookup_prop k source else lookup_prop k target.
Proof.
  unfold spread. revert target.
  induction source as [|[k0 v0] source IH]; intros target Hnd; simpl; [done|].
  apply NoDup_cons in Hnd as [Hk0 Hnd].
  rewrite (IH _ Hnd), lookup_assign1.
  destruct (String.eqb k k0) eqn:E; simpl; [|done].
  apply String.eqb_eq in E; subst k0.
  by rewrite (hasOwn_false_notin k source Hk0).
Qed.

(** The query the hook hands to the service: every own key of [params]
    goes through as it is, [page] and [perPage] included, also when their
    value is falsy; only a key that [params] lacks is defaulted, [page] to 1
    and [perPage] to 10. *)
Theorem queryOf_lookup (o : list (string * value)) (k : string) :
  NoDup (map fst o) ->
  lookup_prop k (queryOf (Some o))
  = if hasOwn k o then lookup_prop k o
    else if String.eqb k "page" then JNum 1
    else if String.eqb k "perPage" then JNum 10
    else JUndefined.
Proof.
  intros Hnd. unfold queryOf. rewrite (lookup_spread _ _ _ Hnd).
  destruct (hasOwn k o) eqn:Ho; [done|]. simpl.
  destruct (String.eqb k "page") eqn:Ep.
  - apply String.eqb_eq in Ep; subst k.
    by rewrite (hasOwn_false_lookup _ _ Ho).
  - destruct (String.eqb k "perPage") eqn:Eq; [|done].
    apply String.eqb_eq in Eq; subst k.
    by rewrite (hasOwn_false_lookup _ _ Ho).
Qed.

Lemma queryOf_lookup_witness :
  NoDup (map fst [("page", JNum 0); ("search", JStr "abc")])
  /\ lookup_prop "page"
       (queryOf (Some [("page", JNum 0); ("search", JStr "abc")]))
     = JNum 0
  /\ lookup_prop "perPage"
       (queryOf (Some [("page", JNum 0); ("search", JStr "abc")]))
     = JNum 10.
Proof.
  assert (Hnd : NoDup (map fst [("page", JNum 0); ("search", JStr "abc")])).
  { simpl. apply NoDup_cons. split; [|apply NoDup_singleton].
    intros Hin. by apply list_elem_of_singleton in Hin. }
  split; [exact Hnd|]. split.
  - apply (queryOf_lookup [("page", JNum 0); ("search", JStr "abc")] "page" Hnd).
  - apply (queryOf_lookup [("page", JNum 0); ("search", JStr "abc")]
             "perPage" Hnd).
Defined.

(** The request a fetch for category [c] sends always carries that
    category's own type and [paginateData: true], whatever [params] holds
    under those two keys; every other key is the query's.  The three
    categories have three different types, and the generic service method
    builds the same parameters as the three specialised ones. *)
Theorem request_parameters c params h k :
  lookup_prop k (getCategorizedTransactions (snd (fetchIssued c params h)))
  = (if String.eqb k "paginateData" then JBool true
     else if String.eqb k "transactionType"
          then JStr (wireName (TRANSACTION_CATEGORIES c))
          else lookup_prop k (queryOf params))
  /\ (forall a b,
        bool_decide (wireName (TRANSACTION_CATEGORIES a)
                     = wireName (TRANSACTION_CATEGORIES b))
        = bool_decide (a = b))
  /\ (forall p,
        getCategorizedTransactions
          {| transactionType := MONEY_IN; query := spreadParams p |}
        = getCollectionTransactions p
        /\ getCategorizedTransactions
             {| transactionType := REVERSAL; query := spreadParams p |}
           = getReversalTransactions p
        /\ getCategorizedTransactions
             {| transactionType := MONEY_OUT; query := spreadParams p |}
           = getPayoutTransactions p).
Proof.
  split; [|split].
  - unfold getCategorizedTransactions, fetchIssued, spread; simpl.
    by rewrite !lookup_assign1.
  - by intros [] [].
  - done.
Qed.

End QueryFacts.

(** ** The per-category caches over time *)

Module CacheFacts.

Import CategorizedTransactions NormalisationPolicy TransactionsPage.
Import CategorizedTransactionsFacts.

(** What settling writes into its own slot. *)
Lemma fetchSettled_slot c served h :
  getCategoryState c (fetchSettled c served h)
  = match tryBlock served with
    | Ok update => update
    | Throw t => catchBlock t
    end (getCategoryState c h).
Proof.
  unfold fetchSettled.
  destruct (tryBlock served); by rewrite getCategoryState_setter_same.
Qed.

Lemma succeeds_tryBlock response :
  succeeds (Resolved response) = true ->
  tryBlock (Resolved response)
  = Ok (fun _ =>
          {| data := fst (extract (prop response "data"));
             meta := or (snd (extract (prop response "data")))
                        (defaultMeta (fst (extract (prop response "data"))));
             loading := false;
             error := None |}).
Proof.
  simpl. intros H. apply andb_true_iff in H as [Hs Ht].
  by apply tryBlock_success.
Qed.

Lemma currentCategory_fetchTransactions c params served h :
  currentCategory (fst (fetchTransactions c params served h))
  = currentCategory h.
Proof.
  destruct (fetchTransactions_writes c params served h) as [f ->].
  apply currentCategory_setter.
Qed.

(** Switching the current category keeps what every category has cached:
    data and meta of all three slots are untouched, and the slot that
    becomes current shows its cached data while it is marked as loading. *)
Theorem switch_keeps_caches h c b :
  data (getCategoryState b (fst (step h (SetCurrentCategory c))))
  = data (getCategoryState b h)
  /\ meta (getCategoryState b (fst (step h (SetCurrentCategory c))))
     = meta (getCategoryState b h)
  /\ currentData (fst (step h (SetCurrentCategory c)))
     = (if decide (c = currentCategory h) then currentData h
        else {| data := data (getCategoryState c h);
                meta := meta (getCategoryState c h);
                loading := true;
                error := None |}).
Proof.
  unfold step, useEffect, currentData; simpl.
  destruct (decide (c = currentCategory h)) as [->|Hne].
  - rewrite bool_decide_true by done. simpl. by destruct (currentCategory h).
  - rewrite bool_decide_false by done. simpl.
    repeat split; by destruct c, b.
Qed.

(** The last answer to arrive wins: once a successful response settles, the
    slot holds what that response alone determines, whatever settled
    before it, be it the answer to a newer request. *)
Theorem last_settled_wins c served1 response2 h :
  succeeds (Resolved response2) = true ->
  getCategoryState c
    (fetchSettled c (Resolved response2) (fetchSettled c served1 h))
  = {| data := fst (extract (prop response2 "data"));
       meta := or (snd (extract (prop response2 "data")))
                  (defaultMeta (fst (extract (prop response2 "data"))));
       loading := false;
       error := None |}.
Proof.
  intros Hs. by rewrite fetchSettled_slot, (succeeds_tryBlock _ Hs).
Qed.

Lemma last_settled_wins_witness :
  let older := JObj [("success", JBool true); ("data", JArr [JStr "old"])] in
  let newer := JObj [("success", JBool true); ("data", JArr [JStr "new"])] in
  let h2 := fst (fetchIssued Collection (Some [("page", JNum 2)])
                   (fst (fetchIssued Collection None (useState Collection)))) in
  succeeds (Resolved older) = true
  /\ data (getCategoryState Collection
             (fetchSettled Collection (Resolved older)
                (fetchSettled Collection (Resolved newer) h2)))
     = [JStr "old"].
Proof.
  intros older newer h2. split; [reflexivity|].
  by rewrite (last_settled_wins Collection (Resolved newer) older h2).
Defined.

(** A settled fetch leaves [error] null exactly when the request resolved
    with a successful envelope and a truthy payload; in every other case
    (a rejection, an unreadable or unsuccessful envelope, a falsy payload)
    an error string is set and the cached data and meta stay. *)
Theorem settled_outcome c served h :
  loading (getCategoryState c (fetchSettled c served h)) = false
  /\ if succeeds served
     then error (getCategoryState c (fetchSettled c served h)) = None
     else error (getCategoryState c (fetchSettled c served h)) <> None
          /\ data (getCategoryState c (fetchSettled c served h))
             = data (getCategoryState c h)
          /\ meta (getCategoryState c (fetchSettled c served h))
             = meta (getCategoryState c h).
Proof.
  split; [apply fetchSettled_clears_loading|].
  destruct (succeeds served) eqn:Hs.
  - destruct served as [response|t]; [|discriminate].
    by rewrite fetchSettled_slot, (succeeds_tryBlock _ Hs).
  - rewrite fetchSettled_slot.
    destruct served as [response|t]; [|done].
    destruct (isNullish response) eqn:Hn.
    + unfold tryBlock, read; simpl. by rewrite Hn.
    + by rewrite (tryBlock_failure _ Hn Hs).
Qed.

Lemma ceilDiv10_bounds (n : nat) :
  (10 * (ceilDiv10 n - 1) < Z.of_nat n <= 10 * ceilDiv10 n)%Z.
Proof.
  unfold ceilDiv10.
  pose proof (Z.div_mod (Z.of_nat n + 9) 10) as Hd.
  pose proof (Z.mod_pos_bound (Z.of_nat n + 9) 10) as Hm.
  lia.
Qed.

(** When the payload of a successful envelope is itself an array, the slot
    holds exactly its elements and a computed meta: page 1, 10 per page,
    [total] the number of elements and [totalPages] the least number of
    10-element pages that hold them all (0 for none). *)
Theorem bare_array_meta c params response xs h :
  isSuccess response = true ->
  prop response "data" = JArr xs ->
  getCategoryState c (fst (fetchTransactions c params (Resolved response) h))
  = {| data := xs;
       meta := JObj [("page", JNum 1); ("perPage", JNum 10);
                     ("total", JNum (Z.of_nat (length xs)));
                     ("totalPages", JNum (ceilDiv10 (length xs)))];
       loading := false;
       error := None |}
  /\ (10 * (ceilDiv10 (length xs) - 1) < Z.of_nat (length xs)
      <= 10 * ceilDiv10 (length xs))%Z.
Proof.
  intros Hs Hd. split; [|apply ceilDiv10_bounds].
  rewrite fetchTransactions_slot, (tryBlock_success _ Hs); by rewrite Hd.
Qed.

Lemma bare_array_meta_witness :
  let xs := map JNum [1; 2; 3; 4; 5; 6; 7; 8; 9; 10; 11]%Z in
  let response := JObj [("status", JStr "success"); ("data", JArr xs)] in
  isSuccess response = true
  /\ prop response "data" = JArr xs
  /\ meta (getCategoryState Payout
             (fst (fetchTransactions Payout None (Resolved response)
                     (useState Collection))))
     = JObj [("page", JNum 1); ("perPage", JNum 10);
             ("total", JNum 11); ("totalPages", JNum 2)].
Proof.
  intros xs response. split; [reflexivity|]. split; [reflexivity|].
  destruct (bare_array_meta Payout None response xs (useState Collection)
              eq_refl eq_refl) as [-> _].
  reflexivity.
Defined.

(** For an [items] payload (shape (b)) the backend's own [meta] is stored
    as it came, whatever its fields, when it is truthy; when it is missing
    or falsy the meta is computed from the number of items. *)
Theorem items_meta_verbatim c params response h :
  isSuccess response = true ->
  holdsArray "data" (prop response "data") = false ->
  holdsArray "items" (prop response "data") = true ->
  data (getCategoryState c
          (fst (fetchTransactions c params (Resolved response) h)))
  = elements (prop (prop response "data") "items")
  /\ meta (getCategoryState c
             (fst (fetchTransactions c params (Resolved response) h)))
     = if truthy (prop (prop response "data") "meta")
       then prop (prop response "data") "meta"
       else defaultMeta (elements (prop (prop response "data") "items")).
Proof.
  unfold holdsArray. intros Hs Hd Hi.
  assert (Ht : truthy (prop response "data") = true).
  { destruct (prop response "data"); try discriminate; reflexivity. }
  rewrite fetchTransactions_slot, (tryBlock_success _ Hs Ht); simpl.
  unfold extract. rewrite !array_test, Hd, Hi. simpl. done.
Qed.

Lemma items_meta_verbatim_witness :
  let response :=
    JObj [("success", JBool true);
          ("data", JObj [("items", JArr [JStr "t1"]);
                         ("meta", JObj [("currentPage", JNum 3);
                                        ("lastPage", JNum 9)])])] in
  isSuccess response = true
  /\ holdsArray "data" (prop response "data") = false
  /\ holdsArray "items" (prop response "data") = true
  /\ meta (getCategoryState Reversal
             (fst (fetchTransactions Reversal None (Resolved response)
                     (useState Collection))))
     = JObj [("currentPage", JNum 3); ("lastPage", JNum 9)].
Proof.
  intros response. repeat (split; [reflexivity|]).
  destruct (items_meta_verbatim Reversal None response (useState Collection)
              eq_refl eq_refl eq_refl) as [_ ->].
  reflexivity.
Defined.

(** What the table is told: before any answer, and after a successful
    answer in which no array was found, the page passes [totalPages = 1]
    and [totalCount = 0] to the table, although the stored meta of the
    latter has [totalPages = 0]. *)
Theorem empty_result_table_totals params response h :
  isSuccess response = true ->
  truthy (prop response "data") = true ->
  noArrayFound (prop response "data") = true ->
  totalPages (fst (fetchTransactions (currentCategory h) params
                     (Resolved response) h)) = JNum 1
  /\ totalCount (fst (fetchTransactions (currentCategory h) params
                        (Resolved response) h)) = JNum 0
  /\ prop (meta (currentData
                   (fst (fetchTransactions (currentCategory h) params
                           (Resolved response) h)))) "totalPages" = JNum 0
  /\ (forall c, totalPages (useState c) = JNum 1
                /\ totalCount (useState c) = JNum 0).
Proof.
  intros Hs Ht Hn.
  assert (Hcur : currentData (fst (fetchTransactions (currentCategory h) params
                                     (Resolved response) h))
                 = {| data := [];
                      meta := JObj [("page", JNum 1); ("perPage", JNum 10);
                                    ("total", JNum 0); ("totalPages", JNum 0)];
                      loading := false; error := None |}).
  { unfold currentData. rewrite currentCategory_fetchTransactions.
    rewrite fetchTransactions_slot, (tryBlock_success _ Hs Ht).
    by rewrite (extract_no_array _ Hn). }
  unfold totalPages, totalCount. rewrite Hcur.
  repeat split; try reflexivity; by destruct c.
Qed.

Lemma empty_result_table_totals_witness :
  let response := JObj [("success", JBool true); ("data", JObj [])] in
  isSuccess response = true
  /\ truthy (prop response "data") = true
  /\ noArrayFound (prop response "data") = true
  /\ totalPages (fst (fetchTransactions Collection None (Resolved response)
                        (useState Collection))) = JNum 1.
Proof.
  intros response. repeat (split; [reflexivity|]).
  apply (empty_result_table_totals None response (useState Collection));
    reflexivity.
Defined.

End CacheFacts.

(** ** More on the cascading filter hook *)

Module FilterFacts.

Import TransactionFilters TransactionFiltersComponent NormalisationPolicy.

(** [setMerchant(id)] sets [merchantId], forces [subMerchantId] to "all",
    resets the sub-merchant options to the single sentinel and issues one
    sub-merchant request scoped to [id], none for "all"; the partner bank,
    the merchant and partner-bank option lists and the other filter fields
    are kept. *)
Theorem setMerchant_cascade (id0 : string) (h : Hook) :
  let after := fst (setMerchant id0 h) in
  merchantId (filters after) = id0
  /\ subMerchantId (filters after) = "all"
  /\ partnerBankId (filters after) = partnerBankId (filters h)
  /\ subMerchants (filterData after) = [createInitialOption]
  /\ merchants (filterData after) = merchants (filterData h)
  /\ partnerBanks (filterData after) = partnerBanks (filterData h)
  /\ snd (step h (SetMerchant id0))
     = (if decide (id0 = "all") then []
        else [GetSubMerchantsByMerchant id0])
  /\ (startDate (filters after), endDate (filters after),
      transactionType (filters after), searchTerm (filters after),
      perPage (filters after))
     = (startDate (filters h), endDate (filters h),
        transactionType (filters h), searchTerm (filters h),
        perPage (filters h)).
Proof.
  unfold step, setMerchant, fetchSubMerchantsByMerchantIssued.
  destruct (decide (id0 = "all")) as [->|Hne].
  - simpl. by repeat split.
  - apply String.eqb_neq in Hne. rewrite Hne. simpl. by repeat split.
Qed.

(** The leaf setters do not cascade: each changes its own field only,
    leaves the selection above it, the option lists, flags and errors
    alone, and issues no request; the card's two date handlers keep the
    other end of the range. *)
Theorem leaf_setters_frame (h : Hook) (v w : string) :
  (filterData (setSubMerchant v h) = filterData h
   /\ filters (setSubMerchant v h)
      = {| partnerBankId := partnerBankId (filters h);
           merchantId := merchantId (filters h);
           subMerchantId := v;
           startDate := startDate (filters h);
           endDate := endDate (filters h);
           transactionType := transactionType (filters h);
           searchTerm := searchTerm (filters h);
           perPage := perPage (filters h) |})
  /\ (filterData (setDateRange v w h) = filterData h
      /\ filters (setDateRange v w h)
         = {| partnerBankId := partnerBankId (filters h);
              merchantId := merchantId (filters h);
              subMerchantId := subMerchantId (filters h);
              startDate := v;
              endDate := w;
              transactionType := transactionType (filters h);
              searchTerm := searchTerm (filters h);
              perPage := perPage (filters h) |})
  /\ (endDate (filters (handleStartDateChange v h)) = endDate (filters h)
      /\ startDate (filters (handleEndDateChange v h))
         = startDate (filters h))
  /\ (filterData (setTransactionType v h) = filterData h
      /\ filterData (setSearchTerm v h) = filterData h
      /\ filterData (setPerPage v h) = filterData h)
  /\ (partnerBankId (filters (setTransactionType v h)),
      merchantId (filters (setSearchTerm v h)),
      subMerchantId (filters (setPerPage v h)))
     = (partnerBankId (filters h), merchantId (filters h),
        subMerchantId (filters h))
  /\ (snd (step h (SetSubMerchant v)), snd (step h (SetDateRange v w)),
      snd (step h (SetTransactionType v)), snd (step h (SetSearchTerm v)),
      snd (step h (SetPerPage v)))
     = ([], [], [], [], []).
Proof. by repeat split. Qed.

Lemma partnerBanks_frame h e :
  match e with
  | PartnerBanksSettled _ => True
  | _ => partnerBanks (filterData (fst (step h e)))
         = partnerBanks (filterData h)
  end.
Proof.
  destruct e as [id0|id0| | | | | | |served|served|served]; simpl; try done.
  - unfold setPartnerBank, fetchMerchantsByPartnerBankIssued.
    by destruct (String.eqb id0 "all").
  - unfold setMerchant, fetchSubMerchantsByMerchantIssued.
    by destruct (String.eqb id0 "all").
  - unfold fetchMerchantsByPartnerBankSettled. by destruct (_ ≫= _).
  - unfold fetchSubMerchantsByMerchantSettled. by destruct (_ ≫= _).
Qed.

(** The partner-bank list is requested once, when the hook mounts: no
    later event requests it again, and only the answer to that request
    changes the list. *)
Theorem partner_banks_fetched_once :
  snd mount = [GetPartnerBanks]
  /\ (forall h e, GetPartnerBanks ∉ snd (step h e))
  /\ (forall h e,
        match e with
        | PartnerBanksSettled _ => True
        | _ => partnerBanks (filterData (fst (step h e)))
               = partnerBanks (filterData h)
        end).
Proof.
  split; [done|]. split; [|apply partnerBanks_frame].
  intros h e.
  destruct e as [id0|id0| | | | | | | | | ]; simpl; try apply not_elem_of_nil.
  - unfold setPartnerBank, fetchMerchantsByPartnerBankIssued.
    destruct (String.eqb id0 "all"); simpl; [apply not_elem_of_nil|].
    intros Hin. by apply list_elem_of_singleton in Hin.
  - unfold setMerchant, fetchSubMerchantsByMerchantIssued.
    destruct (String.eqb id0 "all"); simpl; [apply not_elem_of_nil|].
    intros Hin. by apply list_elem_of_singleton in Hin.
Qed.

(** An answer, good or bad, clears the loading flag of its own list and
    touches neither the other two flags nor the filters. *)
Theorem settling_clears_own_flag (served : settled) (h : Hook) :
  loading (filterData (fetchPartnerBanksSettled served h))
  = {| loadingPartnerBanks := false;
       loadingMerchants := loadingMerchants (loading (filterData h));
       loadingSubMerchants := loadingSubMerchants (loading (filterData h)) |}
  /\ loading (filterData (fetchMerchantsByPartnerBankSettled served h))
     = {| loadingPartnerBanks := loadingPartnerBanks (loading (filterData h));
          loadingMerchants := false;
          loadingSubMerchants :=
            loadingSubMerchants (loading (filterData h)) |}
  /\ loading (filterData (fetchSubMerchantsByMerchantSettled served h))
     = {| loadingPartnerBanks := loadingPartnerBanks (loading (filterData h));
          loadingMerchants := loadingMerchants (loading (filterData h));
          loadingSubMerchants := false |}
  /\ filters (fetchPartnerBanksSettled served h) = filters h
  /\ filters (fetchMerchantsByPartnerBankSettled served h) = filters h
  /\ filters (fetchSubMerchantsByMerchantSettled served h) = filters h.
Proof.
  unfold fetchPartnerBanksSettled, fetchMerchantsByPartnerBankSettled,
    fetchSubMerchantsByMerchantSettled.
  repeat split; by destruct (_ ≫= _).
Qed.

(** A failed partner-bank fetch, unlike a failed merchant fetch, keeps the
    options it had: the list changes only when an answer converts. *)
Theorem partner_bank_failure_keeps_options (served : settled) (h : Hook) :
  partnerBanks (filterData (fetchPartnerBanksSettled served h))
  = match await served ≫= convertPartnerBanksToOptions with
    | Ok options => options
    | Throw _ => partnerBanks (filterData h)
    end
  /\ errorPartnerBanks (error (filterData (fetchPartnerBanksSettled served h)))
     = match await served ≫= convertPartnerBanksToOptions with
       | Ok _ => errorPartnerBanks (error (filterData h))
       | Throw t => Some (messageOr "Failed to fetch partner banks" t)
       end.
Proof.
  unfold fetchPartnerBanksSettled. by destruct (_ ≫= _).
Qed.

(** Once loaded, the partner-bank options stay: no selection, reset,
    clearing of the filters, or failed answer removes them; only another
    answer that converts replaces them. *)
Theorem partner_banks_retained (v : Js.value) (options : list FilterOption)
    (events : list Event) (h : Hook) :
  convertPartnerBanksToOptions v = Ok options ->
  forallb (fun e => negb (replacesPartnerBanks e)) events = true ->
  partnerBanks
    (filterData
       (fold_left (fun h e => fst (step h e)) events
          (fetchPartnerBanksSettled (Resolved v) h)))
  = options.
Proof.
  intros Hv.
  assert (H0 : partnerBanks
                 (filterData (fetchPartnerBanksSettled (Resolved v) h))
               = options).
  { unfold fetchPartnerBanksSettled; simpl. by rewrite Hv. }
  revert H0. generalize (fetchPartnerBanksSettled (Resolved v) h).
  induction events as [|e events IH]; intros h0 H0 Hall; simpl; [done|].
  simpl in Hall. apply andb_true_iff in Hall as [He Hall].
  apply IH; [|done]. rewrite <- H0.
  pose proof (partnerBanks_frame h0 e) as Hframe.
  destruct e as [| | | | | | | |served| | ]; try exact Hframe.
  simpl in *. unfold fetchPartnerBanksSettled.
  by destruct (_ ≫= _).
Qed.

Lemma partner_banks_retained_witness :
  let v := JArr [JObj [("id", JStr "b1"); ("name", JStr "First Bank")]] in
  let options :=
    [createInitialOption;
     {| id := JStr "b1"; name := JStr "First Bank"; value := JStr "b1" |}] in
  let events :=
    [SetPartnerBank "b1";
     MerchantsSettled (Rejected (ErrorInstance "Error" "Network Error"));
     PartnerBanksSettled (Rejected (ErrorInstance "Error" "timeout"));
     ClearFilters] in
  convertPartnerBanksToOptions v = Ok options
  /\ forallb (fun e => negb (replacesPartnerBanks e)) events = true
  /\ partnerBanks (filterData (run (PartnerBanksSettled (Resolved v) :: events)))
     = options.
Proof.
  intros v options events. split; [reflexivity|]. split; [reflexivity|].
  apply (partner_banks_retained v options events (fst mount)); reflexivity.
Defined.

(** *** The option converters *)

Lemma or_truthy a b : truthy (or a b) = truthy a || truthy b.
Proof. unfold or. by destruct (truthy a) eqn:E. Qed.

Lemma mapM_items {B : Type} (f : Js.value -> result B) (P : B -> Prop)
    (items : list Js.value) :
  (forall item,
     match f item with
     | Ok o => isNullish item = false /\ P o
     | Throw t => isNullish item = true
                  /\ exists m, t = ErrorInstance "TypeError" m
     end) ->
  match mapM f items with
  | Ok l => forallb (fun item => negb (isNullish item)) items = true
            /\ length l = length items
            /\ Forall P l
  | Throw t => forallb (fun item => negb (isNullish item)) items = false
               /\ exists m, t = ErrorInstance "TypeError" m
  end.
Proof.
  intros Hf. induction items as [|item items IH]; simpl; [done|].
  specialize (Hf item). destruct (f item) as [o|t]; simpl.
  - destruct Hf as [Hn Po]. rewrite Hn; simpl.
    destruct (mapM f items) as [l|t]; simpl.
    + destruct IH as (Hall & Hlen & HP). repeat split; auto.
    + exact IH.
  - destruct Hf as [Hn Ht]. by rewrite Hn.
Qed.

Lemma arrayMap_convertible {B : Type} receiver (f : Js.value -> result B)
    (P : B -> Prop) (v : Js.value) :
  (forall item,
     match f item with
     | Ok o => isNullish item = false /\ P o
     | Throw t => isNullish item = true
                  /\ exists m, t = ErrorInstance "TypeError" m
     end) ->
  match arrayMap receiver f v with
  | Ok l => convertible v = true
            /\ length l = length (elements v)
            /\ Forall P l
  | Throw t => convertible v = false
               /\ exists m, t = ErrorInstance "TypeError" m
  end.
Proof.
  intros Hf. destruct v; simpl; eauto.
  by apply mapM_items.
Qed.

Lemma convertPartnerBank_spec item :
  match convertPartnerBank item with
  | Ok o => isNullish item = false /\ value o = id o
  | Throw t => isNullish item = true /\ exists m, t = ErrorInstance "TypeError" m
  end.
Proof.
  unfold convertPartnerBank, objectKeysCheck.
  destruct (isNullish item); simpl; eauto.
Qed.

Lemma convertMerchant_spec item :
  match convertMerchant item with
  | Ok o => isNullish item = false /\ value o = id o
  | Throw t => isNullish item = true /\ exists m, t = ErrorInstance "TypeError" m
  end.
Proof.
  unfold convertMerchant, objectKeysCheck.
  destruct (isNullish item); simpl; eauto.
Qed.

Lemma convertSubMerchant_spec item :
  match convertSubMerchant item with
  | Ok o => isNullish item = false /\ value o = id o
  | Throw t => isNullish item = true /\ exists m, t = ErrorInstance "TypeError" m
  end.
Proof.
  unfold convertSubMerchant, read.
  destruct (isNullish item); simpl; eauto.
Qed.

(** Each of the three converters succeeds exactly on an array without
    [null] or [undefined] entries; it then yields the sentinel followed by
    one option per entry, in which [value] and [id] agree.  On anything
    else it throws a TypeError, which the fetch turns into its error
    string. *)
Theorem converters_accept_arrays (v : Js.value) :
  match convertPartnerBanksToOptions v with
  | Ok options => convertible v = true
                  /\ length options = S (length (elements v))
                  /\ Forall (fun o => value o = id o) options
  | Throw t => convertible v = false
               /\ exists m, t = ErrorInstance "TypeError" m
  end
  /\ match convertMerchantsToOptions v with
     | Ok options => convertible v = true
                     /\ length options = S (length (elements v))
                     /\ Forall (fun o => value o = id o) options
     | Throw t => convertible v = false
                  /\ exists m, t = ErrorInstance "TypeError" m
     end
  /\ match convertSubMerchantsToOptions v with
     | Ok options => convertible v = true
                     /\ length options = S (length (elements v))
                     /\ Forall (fun o => value o = id o) options
     | Throw t => convertible v = false
                  /\ exists m, t = ErrorInstance "TypeError" m
     end.
Proof.
  unfold convertPartnerBanksToOptions, convertMerchantsToOptions,
    convertSubMerchantsToOptions.
  split; [|split].
  - pose proof (arrayMap_convertible "partnerBanks" convertPartnerBank
                  (fun o => value o = id o) v convertPartnerBank_spec) as H.
    destruct (arrayMap _ _ v); simpl; [|done].
    destruct H as (Hc & Hl & HP). repeat split; auto.
  - pose proof (arrayMap_convertible "merchants" convertMerchant
                  (fun o => value o = id o) v convertMerchant_spec) as H.
    destruct (arrayMap _ _ v); simpl; [|done].
    destruct H as (Hc & Hl & HP). repeat split; auto.
  - pose proof (arrayMap_convertible "subMerchants" convertSubMerchant
                  (fun o => value o = id o) v convertSubMerchant_spec) as H.
    destruct (arrayMap _ _ v); simpl; [|done].
    destruct H as (Hc & Hl & HP). repeat split; auto.
Qed.

(** The fallback chains of the partner-bank and merchant converters: the
    option's id is truthy exactly when one of the candidate id fields is,
    and its label is truthy when one of the candidate name fields or the
    id is; so a record with a usable id never gets a blank label. *)
Theorem labels_fall_back_to_id (entity : Js.value) :
  isNullish entity = false ->
  exists bankOption merchantOption,
    convertPartnerBank entity = Ok bankOption
    /\ convertMerchant entity = Ok merchantOption
    /\ truthy (id bankOption)
       = existsb (fun k => truthy (prop entity k))
           ["id"; "uuid"; "_id"; "bankId"; "name"]
    /\ truthy (name bankOption)
       = existsb (fun k => truthy (prop entity k)) ["name"; "bankName"; "title"]
         || truthy (id bankOption)
    /\ truthy (id merchantOption)
       = existsb (fun k => truthy (prop entity k))
           ["id"; "uuid"; "_id"; "merchantId"; "name"]
    /\ truthy (name merchantOption)
       = existsb (fun k => truthy (prop entity k))
           ["businessName"; "name"; "merchantName"; "title"]
         || truthy (id merchantOption).
Proof.
  intros Hn. unfold convertPartnerBank, convertMerchant, objectKeysCheck.
  rewrite Hn. simpl. eexists _, _. split; [reflexivity|].
  split; [reflexivity|]. simpl. rewrite !or_truthy, !orb_false_r.
  repeat split; by rewrite ?orb_assoc.
Qed.

Lemma labels_fall_back_to_id_witness :
  isNullish (JObj [("uuid", JStr "m-7")]) = false
  /\ exists bankOption merchantOption,
       convertPartnerBank (JObj [("uuid", JStr "m-7")]) = Ok bankOption
       /\ convertMerchant (JObj [("uuid", JStr "m-7")]) = Ok merchantOption
       /\ name merchantOption = JStr "m-7"
       /\ name bankOption = JStr "m-7".
Proof.
  split; [reflexivity|].
  destruct (labels_fall_back_to_id (JObj [("uuid", JStr "m-7")]) eq_refl)
    as (b & m & Hb & Hm & _).
  exists b, m. split; [exact Hb|]. split; [exact Hm|].
  injection Hb as <-. injection Hm as <-. split; reflexivity.
Defined.

(** *** The card's guards *)

Lemma cascadeConsistent_step h e :
  cascadeConsistent (filters h) = true ->
  cascadeConsistent (filters (cardStep h e)) = true.
Proof.
  intros Hc.
  destruct e as [u|served|served|served]; simpl.
  - destruct u as [v|v|v|v|v|v| ]; simpl.
    + destruct (partnerBankSelectDisabled h); [done|].
      unfold setPartnerBank, fetchMerchantsByPartnerBankIssued.
      by destruct (String.eqb v "all").
    + unfold merchantSelectDisabled.
      destruct (loadingMerchants _); simpl; [done|].
      destruct (String.eqb (partnerBankId (filters h)) "all") eqn:E; [done|].
      unfold setMerchant, fetchSubMerchantsByMerchantIssued.
      destruct (String.eqb v "all") eqn:Ev; unfold cascadeConsistent; simpl;
        by rewrite E, ?orb_true_r.
    + unfold subMerchantSelectDisabled.
      destruct (loadingSubMerchants _); simpl; [done|].
      destruct (String.eqb (merchantId (filters h)) "all") eqn:E; [done|].
      unfold cascadeConsistent in *; simpl. rewrite E in *. simpl in *.
      rewrite orb_true_r in *. exact Hc.
    + exact Hc.
    + exact Hc.
    + exact Hc.
    + reflexivity.
  - by destruct (settling_clears_own_flag served h) as (_ & _ & _ & -> & _ & _).
  - by destruct (settling_clears_own_flag served h) as (_ & _ & _ & _ & -> & _).
  - by destruct (settling_clears_own_flag served h) as (_ & _ & _ & _ & _ & ->).
Qed.

(** Driven through the filter card, whose merchant select is disabled
    while no partner bank is chosen and whose sub-merchant select is
    disabled while no merchant is chosen, the hook never holds a merchant
    without a partner bank nor a sub-merchant without a merchant, in
    whatever order the user acts and the requests are answered. *)
Theorem card_keeps_cascade (events : list CardEvent) :
  cascadeConsistent (filters (cardRun events)) = true.
Proof.
  unfold cardRun.
  assert (H0 : cascadeConsistent (filters (fst mount)) = true) by reflexivity.
  revert H0. generalize (fst mount).
  induction events as [|e events IH]; intros h Hh; simpl; [done|].
  apply IH. by apply cascadeConsistent_step.
Qed.

(** The hook on its own does not enforce this: called directly,
    [setMerchant] takes a merchant under partner bank "all". *)
Example hook_alone_allows_orphan_merchant :
  cascadeConsistent (filters (run [SetMerchant "m1"])) = false.
Proof. reflexivity. Qed.

End FilterFacts.

(** ** The client, the services and the session *)

Module ClientFacts.

Import ApiClient.

Lemma getAuthToken_local w token :
  token <> "" ->
  localStorage w !! "auth_token" = Some token ->
  getAuthToken (Some w) = Some token.
Proof.
  intros Hne Hl. simpl. rewrite Hl.
  apply String.eqb_neq in Hne. by rewrite Hne.
Qed.

Lemma authorization_of_token g token :
  token <> "" ->
  getAuthToken g = Some token ->
  authorization g = Some ("Bearer " ++ token).
Proof.
  intros Hne Hg. unfold authorization. rewrite Hg.
  apply String.eqb_neq in Hne. by rewrite Hne.
Qed.

(** A stored token comes back: after [setAuthToken(token)] with a
    non-empty token the client reads that token, whatever session storage
    holds, and sends it as the bearer header; after [removeAuthToken] it
    reads none and sends none. *)
Theorem token_round_trip (w : Window) (token : string) :
  token <> "" ->
  getAuthToken (setAuthToken token (Some w)) = Some token
  /\ authorization (setAuthToken token (Some w)) = Some ("Bearer " ++ token)
  /\ getAuthToken (removeAuthToken (setAuthToken token (Some w))) = None
  /\ authorization (removeAuthToken (setAuthToken token (Some w))) = None.
Proof.
  intros Hne.
  assert (Hg : getAuthToken (setAuthToken token (Some w)) = Some token).
  { apply getAuthToken_local; [done|]. simpl. by rewrite lookup_insert_eq. }
  split; [exact Hg|]. split; [by apply authorization_of_token|].
  unfold authorization. simpl. by rewrite !lookup_delete_eq.
Qed.

Lemma token_round_trip_witness :
  "abc" <> ""
  /\ authorization
       (setAuthToken "abc"
          (Some {| localStorage := ∅;
                   sessionStorage := {[ "auth_token" := "old" ]};
                   location_href := "/" |}))
     = Some "Bearer abc".
Proof.
  split; [discriminate|].
  apply (token_round_trip
           {| localStorage := ∅;
              sessionStorage := {[ "auth_token" := "old" ]};
              location_href := "/" |} "abc").
  discriminate.
Defined.

(** A request made with [requestWithSecretKey] leaves with the secret
    in its Authorization header only when no auth token is stored: with a
    stored token the request interceptor replaces it by the bearer header.
    Content-Type and Accept are the fixed ones, whatever the caller's
    config says. *)
Theorem secret_key_authorization (g : Global) (secretKey : string)
    (configHeaders : gmap string string) :
  sentHeaders g (secretKeyHeaders secretKey configHeaders) !! "Authorization"
  = Some (match authorization g with
          | Some bearer => bearer
          | None => "Secret " ++ secretKey
          end)
  /\ sentHeaders g (secretKeyHeaders secretKey configHeaders) !! "Content-Type"
     = Some "application/json"
  /\ sentHeaders g (secretKeyHeaders secretKey configHeaders) !! "Accept"
     = Some "application/json, text/plain, */*".
Proof.
  assert (Hs : forall k x,
             secretKeyHeaders secretKey configHeaders !! k = Some x ->
             (secretKeyHeaders secretKey configHeaders ∪ defaultHeaders) !! k
             = Some x).
  { intros k x Hk. by apply lookup_union_Some_l. }
  assert (Ha : secretKeyHeaders secretKey configHeaders !! "Authorization"
               = Some ("Secret " ++ secretKey)).
  { unfold secretKeyHeaders.
    rewrite lookup_insert_ne by done. rewrite lookup_insert_ne by done.
    by rewrite lookup_insert_eq. }
  assert (Hc : secretKeyHeaders secretKey configHeaders !! "Content-Type"
               = Some "application/json").
  { unfold secretKeyHeaders.
    rewrite lookup_insert_ne by done. by rewrite lookup_insert_eq. }
  assert (Hacc : secretKeyHeaders secretKey configHeaders !! "Accept"
                 = Some "application/json, text/plain, */*").
  { unfold secretKeyHeaders. by rewrite lookup_insert_eq. }
  unfold sentHeaders, onRequest, authorization.
  destruct (getAuthToken g) as [token|]; [|by rewrite !(Hs _ _ Ha), !(Hs _ _ Hc), !(Hs _ _ Hacc)].
  destruct (negb (String.eqb token "")).
  - rewrite lookup_insert_eq.
    rewrite !lookup_insert_ne by done.
    by rewrite (Hs _ _ Hc), (Hs _ _ Hacc).
  - by rewrite (Hs _ _ Ha), (Hs _ _ Hc), (Hs _ _ Hacc).
Qed.



End ClientFacts.

Module ErrorPathFacts.

Import ApiClient CategorizedTransactions.
Import CategorizedTransactionsFacts.

(** From the wire to the alert: when the transport fails while a category
    is being fetched, that category's error string is the transport
    error's message, except that an error named SyntaxError or one whose
    message mentions JSON is shown as the fixed invalid-JSON text; the
    cached data and meta stay and the loading flag is cleared. *)
Theorem transport_error_shown c params (g : Global) (failure : AxiosError)
    (h : Hook) :
  let served := snd (TransactionService.serve g (Failed failure)) in
  let after :=
    getCategoryState c (fst (fetchTransactions c params served h)) in
  error after
  = Some (if includes "JSON" (message failure)
             || String.eqb (name failure) "SyntaxError"
          then "Server returned invalid JSON data. Please try again."
          else message failure)
  /\ data after = data (getCategoryState c h)
  /\ meta after = meta (getCategoryState c h)
  /\ loading after = false.
Proof.
  intros served after. subst served after.
  rewrite fetchTransactions_slot.
  unfold TransactionService.serve, request, onRejected; simpl.
  by destruct (_ || _).
Qed.

End ErrorPathFacts.

Module AuthFacts.

Import ApiClient AuthService.

Lemma isAuthenticated_bearer (g : Global) :
  isAuthenticated g
  = match authorization g with
    | Some _ => true
    | None => false
    end.
Proof.
  unfold isAuthenticated, authorization.
  destruct g as [w|]; [|done].
  change (AuthService.getAuthToken (Some w))
    with (ApiClient.getAuthToken (Some w)).
  destruct (ApiClient.getAuthToken (Some w)) as [token|]; [|done].
  by destruct (negb (String.eqb token "")).
Qed.

(** The service and the client read the token alike, and the service
    calls the session authenticated exactly when the client attaches a
    bearer header to its requests. *)
Theorem authenticated_iff_bearer (g : Global) :
  AuthService.getAuthToken g = ApiClient.getAuthToken g
  /\ isAuthenticated g
     = match authorization g with
       | Some _ => true
       | None => false
       end.
Proof.
  split; [by destruct g | apply isAuthenticated_bearer].
Qed.

Lemma delete_twice (m : gmap string string) :
  delete "auth_token" (delete "user_data" (delete "auth_token" m))
  = delete "auth_token" (delete "user_data" m).
Proof.
  apply map_eq. intros k.
  destruct (decide (k = "auth_token")) as [->|Hk].
  - by rewrite !lookup_delete_eq.
  - rewrite !(lookup_delete_ne _ "auth_token") by done.
    destruct (decide (k = "user_data")) as [->|Hu].
    + by rewrite !lookup_delete_eq.
    + rewrite !(lookup_delete_ne _ "user_data") by done.
      by rewrite lookup_delete_ne.
Qed.

Lemma logout_storage (g : Global) :
  logout g
  = match g with
    | Some w =>
        Some {| localStorage :=
                  delete "auth_token" (delete "user_data" (localStorage w));
                sessionStorage := ∅;
                location_href := location_href w |}
    | None => None
    end.
Proof.
  destruct g as [w|]; [|done]. unfold logout; simpl. by rewrite delete_twice.
Qed.

Lemma logout_no_bearer (g : Global) : authorization (logout g) = None.
Proof.
  rewrite logout_storage. destruct g as [w|]; [|done].
  unfold authorization; simpl. by rewrite lookup_delete_eq, lookup_empty.
Qed.

(** [logout] ends the session whatever state it finds: afterwards the
    session is not authenticated and no bearer header is sent; in the
    browser the token and the user snapshot are gone from local storage,
    every other local entry is kept, session storage is empty and the
    location is unchanged. *)
Theorem logout_ends_session (g : Global) :
  isAuthenticated (logout g) = false
  /\ authorization (logout g) = None
  /\ logout g
     = match g with
       | Some w =>
           Some {| localStorage :=
                     delete "auth_token" (delete "user_data" (localStorage w));
                   sessionStorage := ∅;
                   location_href := location_href w |}
       | None => None
       end.
Proof.
  split; [|split; [apply logout_no_bearer | apply logout_storage]].
  by rewrite isAuthenticated_bearer, logout_no_bearer.
Qed.

(** A login answered with a non-empty token stores it: the session is then
    authenticated and requests carry that token as bearer, until [logout]. *)
Theorem login_stores_token (w : Window) (d : LoginResponse) :
  token d <> "" ->
  snd (login (Some w) (LoginFulfilled (Some d))) = inl (Some d)
  /\ isAuthenticated (fst (login (Some w) (LoginFulfilled (Some d)))) = true
  /\ authorization (fst (login (Some w) (LoginFulfilled (Some d))))
     = Some ("Bearer " ++ token d)
  /\ isAuthenticated
       (logout (fst (login (Some w) (LoginFulfilled (Some d))))) = false.
Proof.
  intros Hne.
  assert (Ha : authorization (fst (login (Some w) (LoginFulfilled (Some d))))
               = Some ("Bearer " ++ token d)).
  { apply ClientFacts.authorization_of_token; [done|].
    pose proof Hne as Hb. apply String.eqb_neq in Hb.
    unfold login; simpl. rewrite Hb; simpl.
    by rewrite lookup_insert_eq, Hb. }
  split; [done|]. split; [|split; [exact Ha|]].
  - by rewrite isAuthenticated_bearer, Ha.
  - by rewrite isAuthenticated_bearer, logout_no_bearer.
Qed.

Lemma login_stores_token_witness :
  let w := {| localStorage := ∅; sessionStorage := ∅;
              location_href := "/login/admin" |} in
  let d := {| token := "jwt-1"; user := JNull; expiresIn := 3600 |} in
  token d <> ""
  /\ authorization (fst (login (Some w) (LoginFulfilled (Some d))))
     = Some "Bearer jwt-1".
Proof.
  intros w d. split; [discriminate|].
  apply (login_stores_token w d). discriminate.
Defined.

End AuthFacts.

Module BankServiceFacts.

Import ApiClient BankService TransactionFilters NormalisationPolicy.

Lemma pickPartnerBanks_array response :
  isNullish response = false ->
  pickPartnerBanks response
  = Ok (if isArray (prop response "data") then prop response "data"
        else JArr []).
Proof.
  intros Hn. unfold pickPartnerBanks, read. rewrite Hn; simpl.
  destruct (truthy (prop response "data")) eqn:Ht;
    destruct (isArray (prop response "data")) eqn:Ha; simpl; try done.
  destruct (prop response "data"); discriminate.
Qed.

(** When the first endpoint answers at all, [getPartnerBanks] never throws
    and never asks the fallback endpoint: it returns the [data] array of
    the answer, or the empty array when [data] is anything else, so the
    filter hook, which then sets no error unless an entry is [null],
    shows just the sentinel for a malformed answer. *)
Theorem primary_answer_suffices (g : Global) (response : Js.value)
    (fallback : Transport) :
  isNullish response = false ->
  getPartnerBanks g (Fulfilled response) fallback
  = (g,
     Ok (if isArray (prop response "data") then prop response "data"
         else JArr []),
     [PARTNERS])
  /\ (forall h,
        if isArray (prop response "data") then True
        else partnerBanks
               (filterData
                  (fetchPartnerBanksSettled
                     (settle (snd (fst (getPartnerBanks g (Fulfilled response)
                                          fallback)))) h))
             = [createInitialOption]).
Proof.
  intros Hn.
  assert (Hg : getPartnerBanks g (Fulfilled response) fallback
               = (g,
                  Ok (if isArray (prop response "data")
                      then prop response "data" else JArr []),
                  [PARTNERS])).
  { unfold getPartnerBanks; simpl. by rewrite (pickPartnerBanks_array _ Hn). }
  split; [exact Hg|].
  intros h. rewrite Hg; simpl.
  by destruct (isArray (prop response "data")).
Qed.

Lemma primary_answer_suffices_witness :
  let response := JObj [("success", JBool true);
                        ("data", JObj [("items", JArr [JStr "b1"])])] in
  isNullish response = false
  /\ getPartnerBanks None (Fulfilled response) (Fulfilled JNull)
     = (None, Ok (JArr []), [PARTNERS]).
Proof.
  intros response. split; [reflexivity|].
  apply (primary_answer_suffices None response (Fulfilled JNull)).
  reflexivity.
Defined.

(** When the first endpoint fails, or answers [null], the fallback endpoint
    is asked, and its outcome alone decides the result: its [data.items]
    (or the empty array when that is missing or falsy), or its error; the
    first error is dropped.  If the first failure was a 401, the fallback
    request goes out after the token was removed, without bearer header. *)
Theorem fallback_decides (g : Global) (failure : AxiosError)
    (fallback : Transport) :
  snd (getPartnerBanks g (Failed failure) fallback) = [PARTNERS; PARTNER_BANKS]
  /\ snd (fst (getPartnerBanks g (Failed failure) fallback))
     = match fallback with
       | Fulfilled fallbackResponse =>
           if isNullish fallbackResponse
           then Throw (cannotRead fallbackResponse "data")
           else Ok (or (optProp (prop fallbackResponse "data") "items")
                       (JArr []))
       | Failed fallbackError =>
           Throw (toThrown
                    (snd (onRejected (fst (onRejected g failure))
                            fallbackError)))
       end
  /\ snd (getPartnerBanks g (Fulfilled JNull) fallback)
     = [PARTNERS; PARTNER_BANKS]
  /\ (if bool_decide (response_status failure = Some 401%Z)
      then authorization (fst (request g (Failed failure))) = None
      else fst (request g (Failed failure)) = g).
Proof.
  unfold getPartnerBanks, request.
  destruct (onRejected g failure) as [g1 e1] eqn:E1; simpl.
  split; [|split; [|split]].
  - destruct fallback as [fr|e2]; simpl; [done|].
    by destruct (onRejected g1 e2).
  - destruct fallback as [fr|e2]; simpl.
    + unfold pickFallback, read. by destruct (isNullish fr).
    + by destruct (onRejected g1 e2).
  - destruct fallback as [fr|e2]; simpl; [done|].
    by destruct (onRejected g e2).
  - assert (Hg : g1 = fst (onRejected g failure)) by (by rewrite E1).
    rewrite Hg. unfold onRejected; simpl.
    case_bool_decide as H401.
    + rewrite H401; simpl. unfold authorization.
      by rewrite ApiClientFacts.getAuthToken_after_unauthorized.
    + destruct (response_status failure) as [status|] eqn:Es; [|done].
      destruct (status =? 401)%Z eqn:E4; [|done].
      apply Z.eqb_eq in E4. by subst.
Qed.

End BankServiceFacts.

Module AuthStoreFacts.

Import ApiClient AuthStore.

(** Logging out is deferred: [logout()] only raises the confirmation
    flag, as does [setShowLogoutModal(true)]; the user stays, and in
    storage nothing changes but the store's own persisted copy, so the
    session stays as authenticated as it was.  Dismissing the modal,
    [setShowLogoutModal(false)], is what ends the session, whether or not
    [logout()] came first: the user is cleared, the token and the user
    snapshot leave local storage, the persisted copy holds no user, session
    storage is emptied, and the browser goes to the login page of the role
    the user had, the merchant one when there was no user or no role. *)
Theorem logout_is_deferred (stringify : option User -> string) (w : Window)
    (s : AuthState) :
  setShowLogoutModal stringify true (Some w) s
  = (fst (logout stringify (Some w) s), snd (logout stringify (Some w) s), None)
  /\ snd (logout stringify (Some w) s)
     = {| user := user s; isLoading := isLoading s; error := error s;
          showLogoutModal := true |}
  /\ fst (logout stringify (Some w) s)
     = Some {| localStorage :=
                 <["blupay-auth-storage" := stringify (user s)]>
                   (localStorage w);
               sessionStorage := sessionStorage w;
               location_href := location_href w |}
  /\ AuthService.isAuthenticated (fst (logout stringify (Some w) s))
     = AuthService.isAuthenticated (Some w)
  /\ exists w',
       setShowLogoutModal stringify false (Some w) s
       = (Some w',
          {| user := None; isLoading := isLoading s; error := error s;
             showLogoutModal := false |},
          None)
       /\ location_href w'
          = loginRoute (match user s with Some u => role u | None => None end)
       /\ localStorage w' !! "auth_token" = None
       /\ localStorage w' !! "user_data" = None
       /\ localStorage w' !! "blupay-auth-storage" = Some (stringify None)
       /\ sessionStorage w' = ∅
       /\ AuthService.isAuthenticated (Some w') = false
       /\ existsb (String.eqb (location_href w'))
            ["/login/admin"; "/login/partner-bank"; "/login/submerchant";
             "/login/merchant"] = true.
Proof.
  split; [done|]. split; [done|]. split; [done|]. split.
  - unfold logout, persistUser; simpl.
    by rewrite lookup_insert_ne.
  - unfold setShowLogoutModal, persistUser; simpl.
    eexists. split; [reflexivity|]. simpl.
    rewrite lookup_insert_eq.
    rewrite !(lookup_insert_ne _ "blupay-auth-storage") by done.
    rewrite !lookup_delete_eq.
    rewrite lookup_delete_ne by done. rewrite lookup_delete_eq.
    repeat split; try done.
    by destruct (user s) as [[? [[]|] ? ? ? ?]|].
Qed.

End AuthStoreFacts.
